(** * download_video.py: a shallow embedding and its verified properties

    The script [scripts/download_video.py] shells out to yt-dlp, checks the
    file it produced, asks ffprobe for the height of the video and prints
    one JSON record.  Everything the script does is an effect on the
    outside world, so the embedding is a state-and-exception monad over an
    explicit world: a file system, the two output streams and the log of
    the sub-processes that were started.  What the interpreter, the
    platform and the external programs decide is collected in a [Host]
    record; the three functions of the script are translated statement by
    statement on top of it. *)

From Stdlib Require Import ZArith Ascii String List Bool Lia.
From stdpp Require Import base option strings pretty gmap list.

Import ListNotations.
Open Scope string_scope.
Open Scope list_scope.
Open Scope Z_scope.

(** ** Python text primitives used by the script

    A Python [str] is represented by its UTF-8 encoding, so the opaque
    texts of the script (paths, URL, messages) are plain strings; the two
    places where the script looks inside a text (the first line of the
    cookie file, the output of the probe) work on its code points. *)

Module PyStr.

(** The value of a byte. *)
Definition code (a : ascii) : N := N_of_ascii a.

Definition between (lo hi n : N) : bool := ((lo <=? n) && (n <=? hi))%N.

(** A UTF-8 continuation byte. *)
Definition is_cont (b : N) : bool := between 128 191 b.

(** The second byte a lead byte of a three- or four-byte sequence admits
    (no overlong forms, no surrogates, nothing above U+10FFFF). *)
Definition second_ok (lead b : N) : bool :=
  (if lead =? 224 then between 160 191 b
   else if lead =? 237 then between 128 159 b
   else if lead =? 240 then between 144 191 b
   else if lead =? 244 then between 128 143 b
   else is_cont b)%N.

(** [bytes.decode("utf-8", errors="ignore")]: an invalid lead byte, or a
    lead byte with the valid bytes that followed it, is dropped and
    decoding resumes at the offending byte; a sequence cut off by the end
    of the data is dropped. *)
Fixpoint decode (bytes : string) : list N :=
  match bytes with
  | EmptyString => []
  | String a r =>
      let x := code a in
      if (x <? 128)%N then x :: decode r
      else if between 194 223 x then
        match r with
        | String b r1 =>
            if is_cont (code b)
            then ((x - 192) * 64 + (code b - 128))%N :: decode r1
            else decode r
        | EmptyString => []
        end
      else if between 224 239 x then
        match r with
        | String b r1 =>
            if second_ok x (code b) then
              match r1 with
              | String c r2 =>
                  if is_cont (code c)
                  then ((x - 224) * 4096 + (code b - 128) * 64
                        + (code c - 128))%N :: decode r2
                  else decode r1
              | EmptyString => []
              end
            else decode r
        | EmptyString => []
        end
      else if between 240 244 x then
        match r with
        | String b r1 =>
            if second_ok x (code b) then
              match r1 with
              | String c r2 =>
                  if is_cont (code c) then
                    match r2 with
                    | String d r3 =>
                        if is_cont (code d)
                        then ((x - 240) * 262144 + (code b - 128) * 4096
                              + (code c - 128) * 64 + (code d - 128))%N
                             :: decode r3
                        else decode r2
                    | EmptyString => []
                    end
                  else decode r1
              | EmptyString => []
              end
            else decode r
        | EmptyString => []
        end
      else decode r
  end.

(** [c.isspace()] for a code point. *)
Definition is_space (c : N) : bool :=
  (between 9 13 c || between 28 32 c || (c =? 133) || (c =? 160)
   || (c =? 5760) || between 8192 8202 c || (c =? 8232) || (c =? 8233)
   || (c =? 8239) || (c =? 8287) || (c =? 12288))%N.

(** Drops the leading elements that satisfy [p]. *)
Fixpoint lstrip_by (p : N -> bool) (s : list N) : list N :=
  match s with
  | c :: r => if p c then lstrip_by p r else s
  | [] => []
  end.

(** Drops the trailing elements that satisfy [p]: an element is kept when
    it does not satisfy [p] or when something is left after it. *)
Fixpoint rstrip_by (p : N -> bool) (s : list N) : list N :=
  match s with
  | c :: r =>
      match rstrip_by p r with
      | [] => if p c then [] else [c]
      | r' => c :: r'
      end
  | [] => []
  end.

(** [s.strip()] *)
Definition strip (s : list N) : list N :=
  rstrip_by is_space (lstrip_by is_space s).

(** [s.startswith(p)] *)
Fixpoint startswith (s p : list N) : bool :=
  match p, s with
  | [], _ => true
  | b :: p', a :: s' => if (a =? b)%N then startswith s' p' else false
  | _ :: _, [] => false
  end.

(** [sep.join(l)] *)
Fixpoint join (sep : string) (l : list string) : string :=
  match l with
  | [] => ""
  | [x] => x
  | x :: r => x +:+ sep +:+ join sep r
  end.

(** White space for the C parser behind [int]. *)
Definition c_space (c : N) : bool := (between 9 13 c || (c =? 32))%N.

(** What [int] makes of a code point before parsing: ASCII is kept, other
    white space becomes a blank, a decimal digit of any script becomes
    the ASCII digit of its value, anything else a question mark.
    [decimal] is the decimal-digit table of the interpreter's Unicode
    database. *)
Definition to_ascii (decimal : N -> option N) (c : N) : N :=
  (if c <? 127 then c
   else if is_space c then 32
   else match decimal c with
        | Some d => 48 + d
        | None => 63
        end)%N.

Definition is_digit (c : N) : bool := between 48 57 c.

(** The digits of a decimal literal as [int] reads them: at least one
    digit, single underscores allowed between digits only; the value
    comes with the number of digits read. *)
Fixpoint digits (acc : Z) (count : N) (after_digit : bool) (s : list N)
    : option (Z * N) :=
  match s with
  | [] => if after_digit then Some (acc, count) else None
  | c :: r =>
      if is_digit c
      then digits (10 * acc + (Z.of_N c - 48)) (count + 1) true r
      else if (c =? 95)%N then
             if after_digit then digits acc count false r else None
           else None
  end.

(** [int(s)]: surrounding white space is dropped, one sign is accepted,
    and a literal of more than [max_digits] digits is refused when that
    limit is not zero ([sys.get_int_max_str_digits()], 4300 by default
    from Python 3.11 on); [None] stands for the [ValueError]. *)
Definition int (decimal : N -> option N) (max_digits : N) (s : list N)
    : option Z :=
  let t := rstrip_by c_space (lstrip_by c_space (map (to_ascii decimal) s)) in
  let '(negative, body) :=
    match t with
    | 43%N :: r => (false, r)
    | 45%N :: r => (true, r)
    | _ => (false, t)
    end in
  match digits 0 0 false body with
  | Some (v, n) =>
      if ((0 <? max_digits) && (max_digits <? n))%N then None
      else Some (if negative then - v else v)
  | None => None
  end.

(** [f.readline()] of a file opened in text mode with universal newlines:
    the text up to the first line end, which is delivered as a line feed. *)
Fixpoint readline (s : list N) : list N :=
  match s with
  | [] => []
  | c :: r =>
      if ((c =? 10) || (c =? 13))%N then [10%N] else c :: readline r
  end.

(** The line feed. *)
Definition LF : string := String "010" EmptyString.

(** [l.insert(i, x)]: a negative index counts from the end, and an index
    outside the list is clamped to its ends. *)
Definition insert {A} (i : Z) (x : A) (l : list A) : list A :=
  let n := Z.of_nat (length l) in
  let j := if i <? 0 then Z.max 0 (i + n) else Z.min i n in
  take (Z.to_nat j) l ++ x :: drop (Z.to_nat j) l.

End PyStr.

(** ** The resolution label (lines 84-91 of the script) *)

(** The [if]/[elif] chain over the parsed height; [pretty] is the decimal
    rendering of an integer, as the f-string of line 91 formats it. *)
Definition resolution_label (height : Z) : string :=
  if height >=? 1080 then "1080p"
  else if height >=? 720 then "720p"
  else if height >=? 480 then "480p"
  else pretty height +:+ "p".

(** ** The world the script acts on *)

(** A path names a regular file with its bytes, or a directory.  Paths are
    opaque keys: the model does not relate a path to its parent. *)
Inductive node :=
| File (data : string)
| Dir.

(** The dictionaries handed to [json.dumps]: the script only prints flat
    objects whose values are booleans and strings, keys in source order. *)
Inductive jvalue :=
| JBool (b : bool)
| JStr (s : string).

Definition json : Type := list (string * jvalue).

(** Classes below [Exception] that the model raises itself, and any other
    one by name. *)
Inductive error_class :=
| FileNotFoundError
| FileExistsError
| IsADirectoryError
| NotADirectoryError
| PermissionError
| ValueError
| OtherError (name : string).

(** The refusals of the operating system whose exception class depends on
    the platform: removing a directory with [os.remove], opening a
    directory for reading, creating a directory below a regular file. *)
Inductive os_failure :=
| UnlinkDirectory
| OpenDirectory
| MkdirBelowFile.

(** What can be raised: an [Exception] with its [str(e)] text, or the
    [SystemExit] of [sys.exit], which is a [BaseException] only and so
    passes through [except Exception]. *)
Inductive exn :=
| Error (cls : error_class) (msg : string)
| SystemExit (code : Z).

(** [isinstance(e, Exception)] *)
Definition is_Exception (e : exn) : bool :=
  match e with
  | Error _ _ => true
  | SystemExit _ => false
  end.

(** [str(e)] *)
Definition str (e : exn) : string :=
  match e with
  | Error _ msg => msg
  | SystemExit code => pretty code
  end.

(** [subprocess.CompletedProcess] with captured text output, the two
    texts in UTF-8. *)
Record Completed := {
  returncode : Z;
  stdout : string;
  stderr : string
}.

(** The observable world: the file system, the records printed on standard
    output, the lines printed on standard error, and every command handed
    to [subprocess.run], in order. *)
Record World := {
  files : gmap string node;
  printed : list json;
  logged : list string;
  spawned : list (list string)
}.

Definition set_files (f : gmap string node) (w : World) : World :=
  {| files := f; printed := printed w; logged := logged w; spawned := spawned w |}.

(** What the script takes from its surroundings: the platform name, its
    own path ([__file__]), the [os.path] flavour of the platform, the size
    [stat] reports for a directory, the class of the [OSError] behind each
    platform-dependent refusal and the text [str(e)] of an [OSError] of a
    given class on a given path, the decimal-digit table of the
    interpreter's Unicode database and its limit on the digits of an
    integer literal (zero for none), and the behaviour of external
    programs, which may change the file system and either complete or make
    [subprocess.run] raise. *)
Record Host := {
  sys_platform : string;
  script_file : string;
  os_path_dirname : string -> string;
  os_path_join : string -> list string -> string;
  dir_size : Z;
  failure_class : os_failure -> error_class;
  error_text : error_class -> string -> string;
  unicode_decimal : N -> option N;
  int_max_str_digits : N;
  execute : list string -> gmap string node -> (exn + Completed) * gmap string node
}.

(** ** State and exceptions *)

Inductive res (A : Type) :=
| Ok (a : A)
| Raise (e : exn).
Arguments Ok {A} a.
Arguments Raise {A} e.

Definition M (A : Type) : Type := World -> res A * World.

Definition ret {A} (a : A) : M A := fun w => (Ok a, w).

Definition raise {A} (e : exn) : M A := fun w => (Raise e, w).

Definition bind {A B} (c : M A) (k : A -> M B) : M B :=
  fun w =>
    match c w with
    | (Ok a, w') => k a w'
    | (Raise e, w') => (Raise e, w')
    end.

(** [try: body  except <classes accepted by catches> as e: handler e] *)
Definition try_except {A} (catches : exn -> bool) (body : M A)
    (handler : exn -> M A) : M A :=
  fun w =>
    match body w with
    | (Raise e, w') => if catches e then handler e w' else (Raise e, w')
    | r => r
    end.

Declare Scope py_scope.
Delimit Scope py_scope with py.
Notation "x <- c ;; k" := (bind c (fun x => k))
  (at level 100, c at next level, right associativity) : py_scope.
Notation "c ;; k" := (bind c (fun _ => k))
  (at level 100, right associativity) : py_scope.
Open Scope py_scope.

(** [if c: body] with no [else] *)
Definition when (c : bool) (body : M unit) : M unit :=
  if c then body else ret tt.

(** ** The library calls of the script *)

Section Script.

Variable host : Host.

(** The [OSError] of class [cls] about path [p]. *)
Definition os_error (cls : error_class) (p : string) : exn :=
  Error cls (error_text host cls p).

(** [os.path.exists(p)] *)
Definition os_path_exists (p : string) : M bool :=
  fun w => (Ok (match files w !! p with Some _ => true | None => false end), w).

(** [os.remove(p)]: unlinks a regular file and raises on anything else. *)
Definition os_remove (p : string) : M unit :=
  fun w =>
    match files w !! p with
    | Some (File _) => (Ok tt, set_files (delete p (files w)) w)
    | Some Dir => (Raise (os_error (failure_class host UnlinkDirectory) p), w)
    | None => (Raise (os_error FileNotFoundError p), w)
    end.

(** [os.path.getsize(p)] *)
Definition os_path_getsize (p : string) : M Z :=
  fun w =>
    match files w !! p with
    | Some (File data) => (Ok (Z.of_nat (String.length data)), w)
    | Some Dir => (Ok (dir_size host), w)
    | None => (Raise (os_error FileNotFoundError p), w)
    end.

(** The recursion of [os.makedirs]: an existing directory is accepted and
    an existing regular file refused; a missing name is created after its
    missing ancestors, unless the nearest existing ancestor is a regular
    file. [fuel] bounds the climb by the length of the name. *)
Fixpoint makedirs_in (fuel : nat) (name : string) (f : gmap string node)
    : exn + gmap string node :=
  match f !! name with
  | Some Dir => inr f
  | Some (File _) => inl (os_error FileExistsError name)
  | None =>
      let head := os_path_dirname host name in
      if String.eqb head "" || String.eqb head name then inr (<[name := Dir]> f)
      else
        match f !! head with
        | Some Dir => inr (<[name := Dir]> f)
        | Some (File _) => inl (os_error (failure_class host MkdirBelowFile) name)
        | None =>
            match fuel with
            | O => inr (<[name := Dir]> f)
            | S k =>
                match makedirs_in k head f with
                | inl e => inl e
                | inr f' => inr (<[name := Dir]> f')
                end
            end
        end
  end.

(** [os.makedirs(name, exist_ok=True)]; the empty name is refused by
    [mkdir]. *)
Definition os_makedirs (name : string) : M unit :=
  fun w =>
    if String.eqb name "" then (Raise (os_error FileNotFoundError name), w)
    else
      match makedirs_in (String.length name) name (files w) with
      | inl e => (Raise e, w)
      | inr f => (Ok tt, set_files f w)
      end.

(** [with open(p, "r", encoding="utf-8", errors="ignore") as f: f.readline()]:
    the bytes are decoded with undecodable ones dropped, and the first
    line of the text is returned. *)
Definition open_readline (p : string) : M (list N) :=
  fun w =>
    match files w !! p with
    | Some (File data) => (Ok (PyStr.readline (PyStr.decode data)), w)
    | Some Dir => (Raise (os_error (failure_class host OpenDirectory) p), w)
    | None => (Raise (os_error FileNotFoundError p), w)
    end.

(** [subprocess.run(cmd, capture_output=True, text=True)] *)
Definition subprocess_run (cmd : list string) : M Completed :=
  fun w =>
    let '(r, f) := execute host cmd (files w) in
    let w' := {| files := f; printed := printed w; logged := logged w;
                 spawned := spawned w ++ [cmd] |} in
    match r with
    | inl e => (Raise e, w')
    | inr result => (Ok result, w')
    end.

(** [print(json.dumps(obj))] *)
Definition print (obj : json) : M unit :=
  fun w => (Ok tt, {| files := files w; printed := printed w ++ [obj];
                      logged := logged w; spawned := spawned w |}).

(** [print(line, file=sys.stderr)] *)
Definition print_stderr (line : string) : M unit :=
  fun w => (Ok tt, {| files := files w; printed := printed w;
                      logged := logged w ++ [line]; spawned := spawned w |}).

(** [sys.exit(code)] *)
Definition sys_exit {A} (code : Z) : M A := raise (SystemExit code).

(** [int(s)] of the interpreter. *)
Definition py_int (s : list N) : option Z :=
  PyStr.int (unicode_decimal host) (int_max_str_digits host) s.

(** [int(s)] as a computation. *)
Definition int (s : list N) : M Z :=
  match py_int s with
  | Some n => ret n
  | None => raise (Error ValueError "invalid literal for int() with base 10")
  end.

(** ** The script *)

Definition cookie_header : string := "# Netscape HTTP Cookie File".

Definition cookie_warning : string :=
  "cookies.txt exists but is not a valid Netscape format file, ignoring.".

Definition format_selector : string :=
  "best[ext=mp4][vcodec^=avc1]/best[ext=mp4]/mp4".

(** [YTDLP_PATH], lines 20-24. *)
Definition YTDLP_PATH : string :=
  if String.eqb (sys_platform host) "win32"
  then os_path_join host (os_path_dirname host (script_file host)) [".."; "yt-dlp.exe"]
  else "yt-dlp".

(** [cookies_path], line 40. *)
Definition cookies_path : string :=
  os_path_join host (os_path_dirname host (script_file host)) ["cookies.txt"].

(** [download_with_ytdlp(url, output_path)], lines 14-59. *)
Definition download_with_ytdlp (url output_path : string) : M bool :=
  present <- os_path_exists output_path ;;
  when present (os_remove output_path) ;;
  let cmd := [YTDLP_PATH; "-f"; format_selector; "-o"; output_path; url] in
  has_cookies <- os_path_exists cookies_path ;;
  cmd <- (if has_cookies then
            line <- open_readline cookies_path ;;
            let first_line := PyStr.strip line in
            if PyStr.startswith first_line (PyStr.decode cookie_header) then
              ret (PyStr.insert (-1) cookies_path (PyStr.insert (-1) "--cookies" cmd))
            else
              (print_stderr cookie_warning ;; ret cmd)
          else ret cmd) ;;
  print_stderr ("Running command: " +:+ PyStr.join " " cmd) ;;
  result <- subprocess_run cmd ;;
  print_stderr ("yt-dlp stdout: " +:+ stdout result) ;;
  print_stderr ("yt-dlp stderr: " +:+ stderr result) ;;
  ret (returncode result =? 0).

(** The probe command of lines 68-79. *)
Definition ffprobe_cmd (output_path : string) : list string :=
  ["ffprobe"; "-v"; "quiet"; "-select_streams"; "v:0"; "-show_entries";
   "stream=height"; "-of"; "csv=s=x:p=0"; output_path].

(** [get_video_resolution(output_path)], lines 62-95; the bare [except]
    catches whatever is raised. *)
Definition get_video_resolution (output_path : string) : M string :=
  try_except (fun _ => true)
    (let cmd := ffprobe_cmd output_path in
     result <- subprocess_run cmd ;;
     if returncode result =? 0 then
       height <- int (PyStr.strip (PyStr.decode (stdout result))) ;;
       ret (resolution_label height)
     else ret "unknown")
    (fun _ => ret "unknown").

Definition usage_record : json :=
  [("success", JBool false);
   ("error", JStr "Usage: python download_video.py <url> <start_time> <end_time> <output_path>")].

Definition invalid_file_record : json :=
  [("success", JBool false);
   ("error", JStr "yt-dlp failed or produced invalid file. See logs above.")].

Definition error_record (e : exn) : json :=
  [("success", JBool false); ("error", JStr (str e))].

Definition success_record (resolution output_path : string) : json :=
  [("success", JBool true); ("resolution", JStr resolution);
   ("output_path", JStr output_path)].

(** The condition of lines 121-125, with the short-circuit of [or]. *)
Definition invalid_download (success : bool) (output_path : string) : M bool :=
  if negb success then ret true
  else
    present <- os_path_exists output_path ;;
    if negb present then ret true
    else
      size <- os_path_getsize output_path ;;
      ret (size <? 1000).

(** [if os.path.exists(output_path): os.remove(output_path)] *)
Definition remove_if_exists (output_path : string) : M unit :=
  present <- os_path_exists output_path ;;
  when present (os_remove output_path).

(** [main()], lines 98-151, with [argv] for [sys.argv]. *)
Definition main (argv : list string) : M unit :=
  when (length argv <? 5)%nat
    (print usage_record ;; sys_exit 1) ;;
  match take 4 (drop 1 argv) with
  | [url; start_time; end_time; output_path] =>
      os_makedirs (os_path_dirname host output_path) ;;
      try_except is_Exception
        (success <- download_with_ytdlp url output_path ;;
         invalid <- invalid_download success output_path ;;
         when invalid
           (print invalid_file_record ;;
            remove_if_exists output_path ;;
            sys_exit 1) ;;
         resolution <- get_video_resolution output_path ;;
         print (success_record resolution output_path))
        (fun e =>
           print (error_record e) ;;
           remove_if_exists output_path ;;
           sys_exit 1)
  | _ => raise (Error ValueError "not enough values to unpack")
  end.

(** ** Running the script as a process *)

Definition initial (f : gmap string node) : World :=
  {| files := f; printed := []; logged := []; spawned := [] |}.

(** The exit status the interpreter gives the process: 0 when [main]
    returns, the code of a [SystemExit], 1 after any other exception. *)
Definition exit_status (r : res unit) : Z :=
  match r with
  | Ok _ => 0
  | Raise (SystemExit code) => code
  | Raise _ => 1
  end.

(** The exception that reached the interpreter, which prints its
    traceback on standard error. *)
Definition uncaught (r : res unit) : option exn :=
  match r with
  | Raise (Error cls msg) => Some (Error cls msg)
  | _ => None
  end.

Record Run := {
  status : Z;
  traceback : option exn;
  final : World
}.

(** [if __name__ == "__main__": main()] *)
Definition run (argv : list string) (f : gmap string node) : Run :=
  let '(r, w) := main argv (initial f) in
  {| status := exit_status r; traceback := uncaught r; final := w |}.

End Script.

(** ** Reading printed records *)

(** [obj[key]] on a printed record. *)
Fixpoint field (key : string) (obj : json) : option jvalue :=
  match obj with
  | [] => None
  | (k, v) :: r => if String.eqb k key then Some v else field key r
  end.

(** A failure record: [success] is false and there is an [error] text. *)
Definition is_failure_record (obj : json) : Prop :=
  ∃ msg, obj = [("success", JBool false); ("error", JStr msg)].

(** ** The outcomes of [main], spelled out

    Closed forms of the pieces of [main], used to state what a run does. *)

Section Outcomes.

Variable host : Host.

(** The world after the probe ran: only the external program acted. *)
Definition after_probe (output_path : string) (w : World) : World :=
  {| files := (execute host (ffprobe_cmd output_path) (files w)).2;
     printed := printed w; logged := logged w;
     spawned := spawned w ++ [ffprobe_cmd output_path] |}.

Definition add_printed (obj : json) (w : World) : World :=
  {| files := files w; printed := printed w ++ [obj];
     logged := logged w; spawned := spawned w |}.

(** What the three statements "print the record, remove the output file
    if it exists, exit with status 1" amount to. *)
Definition report_and_exit (output_path : string) (obj : json) (w : World)
    : res unit * World :=
  match files w !! output_path with
  | Some (File _) =>
      (Raise (SystemExit 1), set_files (delete output_path (files w)) (add_printed obj w))
  | Some Dir =>
      (Raise (os_error host (failure_class host UnlinkDirectory) output_path),
       add_printed obj w)
  | None => (Raise (SystemExit 1), add_printed obj w)
  end.

(** The [except Exception] clause of [main]. *)
Definition handle (output_path : string) (r : res unit * World)
    : res unit * World :=
  match r with
  | (Raise e, w) =>
      if is_Exception e then report_and_exit output_path (error_record e) w
      else (Raise e, w)
  | _ => r
  end.

(** The [try] block of [main] after the download step returned. *)
Definition after_download (output_path : string) (success : bool) (w : World)
    : res unit * World :=
  if negb success
     || match files w !! output_path with
        | Some (File data) => Z.of_nat (String.length data) <? 1000
        | Some Dir => dir_size host <? 1000
        | None => true
        end
  then report_and_exit output_path invalid_file_record w
  else
    match get_video_resolution host output_path w with
    | (Ok resolution, w') => (Ok tt, add_printed (success_record resolution output_path) w')
    | (Raise e, w') => (Raise e, w')
    end.

End Outcomes.

(** ** [posixpath], the [os.path] of every platform but Windows *)

Module PosixPath.

(** [p[:p.rfind("/") + 1]] *)
Fixpoint upto_last_sep (p : string) : string :=
  match p with
  | EmptyString => EmptyString
  | String a r =>
      match upto_last_sep r with
      | EmptyString => if Ascii.eqb a "/" then String a EmptyString else EmptyString
      | t => String a t
      end
  end.

(** [head == sep * len(head)] *)
Fixpoint all_sep (s : string) : bool :=
  match s with
  | EmptyString => true
  | String a r => Ascii.eqb a "/" && all_sep r
  end.

(** [head.rstrip("/")] *)
Fixpoint rstrip_sep (s : string) : string :=
  match s with
  | EmptyString => EmptyString
  | String a r =>
      match rstrip_sep r with
      | EmptyString => if Ascii.eqb a "/" then EmptyString else String a EmptyString
      | r' => String a r'
      end
  end.

(** ["/" in p] *)
Fixpoint has_sep (p : string) : bool :=
  match p with
  | EmptyString => false
  | String a r => Ascii.eqb a "/" || has_sep r
  end.

(** [posixpath.dirname(p)] *)
Definition dirname (p : string) : string :=
  let head := upto_last_sep p in
  if negb (String.eqb head "") && negb (all_sep head) then rstrip_sep head else head.

(** [s.endswith("/")] *)
Fixpoint ends_with_sep (s : string) : bool :=
  match s with
  | EmptyString => false
  | String a EmptyString => Ascii.eqb a "/"
  | String _ r => ends_with_sep r
  end.

(** [b.startswith("/")] *)
Definition starts_with_sep (b : string) : bool :=
  match b with
  | String a _ => Ascii.eqb a "/"
  | EmptyString => false
  end.

(** One round of the loop of [posixpath.join]. *)
Definition join_step (path b : string) : string :=
  if starts_with_sep b then b
  else if String.eqb path "" || ends_with_sep path then path +:+ b
  else path +:+ "/" +:+ b.

(** [posixpath.join(a, *p)] *)
Definition join (a : string) (p : list string) : string :=
  fold_left join_step p a.

End PosixPath.

(** ** A concrete host, to run the script on examples *)

Module Demo.

(** The argument that follows [flag] on a command line. *)
Fixpoint arg_after (flag : string) (cmd : list string) : option string :=
  match cmd with
  | a :: ((b :: _) as r) => if String.eqb a flag then Some b else arg_after flag r
  | _ => None
  end.

(** External programs of the example host: ffprobe answers [probe] and
    touches nothing; any other program behaves as a downloader that leaves
    [product] at the path given after [-o] and exits with [rc]. *)
Definition programs (product : node) (rc : Z) (probe : Completed)
    (cmd : list string) (f : gmap string node)
    : (exn + Completed) * gmap string node :=
  match cmd with
  | prog :: _ =>
      if String.eqb prog "ffprobe" then (inr probe, f)
      else
        match arg_after "-o" cmd with
        | Some p => (inr {| returncode := rc; stdout := ""; stderr := "" |},
                     <[p := product]> f)
        | None => (inr {| returncode := 2; stdout := ""; stderr := "usage" |}, f)
        end
  | [] => (inl (Error (OtherError "IndexError") "list index out of range"), f)
  end.

(** The classes Linux raises for the platform-dependent refusals. *)
Definition linux_class (k : os_failure) : error_class :=
  match k with
  | UnlinkDirectory => IsADirectoryError
  | OpenDirectory => IsADirectoryError
  | MkdirBelowFile => NotADirectoryError
  end.

(** [str(e)] of an [OSError] on Linux, for a path that [repr] renders
    between single quotes without escapes. *)
Definition linux_text (cls : error_class) (p : string) : string :=
  match cls with
  | FileNotFoundError => "[Errno 2] No such file or directory: '"
  | FileExistsError => "[Errno 17] File exists: '"
  | IsADirectoryError => "[Errno 21] Is a directory: '"
  | NotADirectoryError => "[Errno 20] Not a directory: '"
  | PermissionError => "[Errno 13] Permission denied: '"
  | ValueError | OtherError _ => "[Errno 5] Input/output error: '"
  end +:+ p +:+ "'".

(** The code points of the digit zero in the scripts of Unicode 14.0,
    past ASCII; the nine code points after each are its digits one to
    nine. *)
Definition decimal_zeros : list N :=
  [1632; 1776; 1984; 2406; 2534; 2662; 2790; 2918; 3046; 3174; 3302; 3430;
   3558; 3664; 3792; 3872; 4160; 4240; 6112; 6160; 6470; 6608; 6784; 6800;
   6992; 7088; 7232; 7248; 42528; 43216; 43264; 43472; 43504; 43600; 44016;
   65296; 66720; 68912; 69734; 69872; 69942; 70096; 70384; 70736; 70864;
   71248; 71360; 71472; 71904; 72016; 72784; 73040; 73120; 92768; 92864;
   93008; 120782; 120792; 120802; 120812; 120822; 123200; 123632; 125264;
   130032]%N.

(** [unicodedata.decimal(c)] past ASCII, [None] when there is none. *)
Definition decimal (c : N) : option N :=
  match List.find (fun z => (z <=? c) && (c <=? z + 9))%N decimal_zeros with
  | Some z => Some (c - z)%N
  | None => None
  end.

(** A Linux machine running CPython 3.11, with the script installed under
    [/app/scripts] and the given external programs. *)
Definition machine
    (programs : list string -> gmap string node
                -> (exn + Completed) * gmap string node) : Host :=
  {| sys_platform := "linux";
     script_file := "/app/scripts/download_video.py";
     os_path_dirname := PosixPath.dirname;
     os_path_join := PosixPath.join;
     dir_size := 4096;
     failure_class := linux_class;
     error_text := linux_text;
     unicode_decimal := decimal;
     int_max_str_digits := 4300;
     execute := programs |}.

Definition linux (product : node) (rc : Z) (probe : Completed) : Host :=
  machine (programs product rc probe).

(** The bytes with the given values. *)
Fixpoint octets (l : list N) : string :=
  match l with
  | [] => EmptyString
  | n :: r => String (ascii_of_N n) (octets r)
  end.

(** [n] bytes of payload. *)
Fixpoint bytes (n : nat) : string :=
  match n with
  | O => EmptyString
  | S k => String "x" (bytes k)
  end.

Definition probe_ok (text : string) : Completed :=
  {| returncode := 0; stdout := text; stderr := "" |}.

Definition url : string := "https://youtu.be/abc".

Definition argv (output_path : string) : list string :=
  ["download_video.py"; url; "00:00:10"; "00:00:20"; output_path].

(** A working installation: the download is 1000 bytes of video, 720
    lines high. *)
Definition good : Host := linux (File (bytes 1000)) 0 (probe_ok ("720" +:+ PyStr.LF)).

(** The downloader reports success but leaves one byte less. *)
Definition short : Host := linux (File (bytes 999)) 0 (probe_ok ("720" +:+ PyStr.LF)).

(** The downloader fails and leaves a directory where the file should be. *)
Definition stubborn : Host := linux Dir 1 (probe_ok ("720" +:+ PyStr.LF)).

(** A file system holding only a cookie file with the given first line. *)
Definition cookie_jar (first_line : string) : gmap string node :=
  {[ "/app/scripts/cookies.txt" :=
       File (first_line +:+ PyStr.LF +:+ ".youtube.com TRUE / TRUE 0 SID abc" +:+ PyStr.LF) ]}.

(** The world after directory creation for ["out/clip.mp4"] on an empty
    file system, and after the download step of [h] there. *)
Definition made : World := (os_makedirs good "out" (initial ∅)).2.

Definition downloaded (h : Host) : World :=
  (download_with_ytdlp h url "out/clip.mp4" made).2.

End Demo.

(** ** The download step, spelled out *)

Section DownloadOutcome.

Variable host : Host.

(** The two command lines the download step can build. *)
Definition plain_cmd (url output_path : string) : list string :=
  [YTDLP_PATH host; "-f"; format_selector; "-o"; output_path; url].

Definition cookies_cmd (url output_path : string) : list string :=
  [YTDLP_PATH host; "-f"; format_selector; "-o"; output_path;
   "--cookies"; cookies_path host; url].

(** The cookie path holds a regular file whose stripped first line starts
    with the header. *)
Definition header_found (data : string) : bool :=
  PyStr.startswith (PyStr.strip (PyStr.readline (PyStr.decode data)))
    (PyStr.decode cookie_header).

Definition cookie_accepted (g : gmap string node) : bool :=
  match g !! cookies_path host with
  | Some (File data) => header_found data
  | _ => false
  end.

(** The cookie path holds a regular file that is not accepted. *)
Definition cookie_refused (g : gmap string node) : bool :=
  match g !! cookies_path host with
  | Some (File data) => negb (header_found data)
  | _ => false
  end.

Definition download_cmd (g : gmap string node) (url output_path : string)
    : list string :=
  if cookie_accepted g then cookies_cmd url output_path
  else plain_cmd url output_path.

(** The lines logged before the downloader is started. *)
Definition announce (g : gmap string node) (cmd : list string) : list string :=
  (if cookie_refused g then [cookie_warning] else [])
  ++ ["Running command: " +:+ PyStr.join " " cmd].

(** The result of [download_with_ytdlp] in closed form. *)
Definition download_outcome (url output_path : string) (w : World)
    : res bool * World :=
  match files w !! output_path with
  | Some Dir =>
      (Raise (os_error host (failure_class host UnlinkDirectory) output_path), w)
  | _ =>
      let g := delete output_path (files w) in
      match g !! cookies_path host with
      | Some Dir =>
          (Raise (os_error host (failure_class host OpenDirectory)
                    (cookies_path host)),
           set_files g w)
      | _ =>
          let cmd := download_cmd g url output_path in
          let w' := {| files := (execute host cmd g).2; printed := printed w;
                       logged := logged w ++ announce g cmd;
                       spawned := spawned w ++ [cmd] |} in
          match (execute host cmd g).1 with
          | inl e => (Raise e, w')
          | inr result =>
              (Ok (returncode result =? 0),
               {| files := files w'; printed := printed w';
                  logged := logged w'
                            ++ ["yt-dlp stdout: " +:+ stdout result;
                                "yt-dlp stderr: " +:+ stderr result];
                  spawned := spawned w' |})
          end
      end
  end.

(** External programs make [subprocess.run] raise nothing but
    [Exception]s. *)
Definition raises_exceptions_only : Prop :=
  ∀ cmd g e g', execute host cmd g = (inl e, g') → is_Exception e = true.

End DownloadOutcome.

(** ** Hosts on which something goes wrong *)

Module Faults.

(** No downloader is installed: starting anything but ffprobe raises. *)
Definition no_downloader (cmd : list string) (f : gmap string node)
    : (exn + Completed) * gmap string node :=
  match cmd with
  | prog :: _ =>
      if String.eqb prog "ffprobe"
      then (inr (Demo.probe_ok ("720" +:+ PyStr.LF)), f)
      else (inl (Error FileNotFoundError
                   ("[Errno 2] No such file or directory: '" +:+ prog +:+ "'")), f)
  | [] => (inl (Error (OtherError "IndexError") "list index out of range"), f)
  end.

Definition bare : Host := Demo.machine no_downloader.

(** The downloader exits with 0 and writes nothing. *)
Definition idle_programs (cmd : list string) (f : gmap string node)
    : (exn + Completed) * gmap string node :=
  match cmd with
  | prog :: _ =>
      if String.eqb prog "ffprobe"
      then (inr (Demo.probe_ok ("720" +:+ PyStr.LF)), f)
      else (inr {| returncode := 0; stdout := "nothing to do"; stderr := "" |}, f)
  | [] => (inl (Error (OtherError "IndexError") "list index out of range"), f)
  end.

Definition idle : Host := Demo.machine idle_programs.

(** A downloader that writes 1000 bytes and exits with 0, and a probe
    that removes the file it is asked about before it answers. *)
Definition eating_programs (cmd : list string) (f : gmap string node)
    : (exn + Completed) * gmap string node :=
  match cmd with
  | prog :: _ =>
      if String.eqb prog "ffprobe"
      then (inr (Demo.probe_ok ("720" +:+ PyStr.LF)),
            match last cmd with
            | Some p => delete p f
            | None => f
            end)
      else Demo.programs (File (Demo.bytes 1000)) 0
             (Demo.probe_ok ("720" +:+ PyStr.LF)) cmd f
  | [] => (inl (Error (OtherError "IndexError") "list index out of range"), f)
  end.

Definition eater : Host := Demo.machine eating_programs.

(** The downloader exits with 0 and leaves a directory at the output
    path. *)
Definition folder : Host :=
  Demo.linux Dir 0 (Demo.probe_ok ("720" +:+ PyStr.LF)).

(** The download is fine and the probe fails: it exits with 1, or prints
    no number. *)
Definition probe_exits_1 : Host :=
  Demo.linux (File (Demo.bytes 1000)) 0
    {| returncode := 1; stdout := ""; stderr := "clip.mp4: Invalid data" |}.

Definition probe_prints_text : Host :=
  Demo.linux (File (Demo.bytes 1000)) 0 (Demo.probe_ok ("N/A" +:+ PyStr.LF)).

End Faults.

(** ** Properties of the primitives and of the two helper functions *)

Section Properties.

Variable host : Host.

Lemma get_video_resolution_returns output_path w :
  ∃ label, get_video_resolution host output_path w
           = (Ok label, after_probe host output_path w).
Proof.
  unfold get_video_resolution, try_except, bind, after_probe, subprocess_run.
  destruct (execute host (ffprobe_cmd output_path) (files w)) as [[e|c] g]; simpl.
  - eexists; reflexivity.
  - destruct (returncode c =? 0); [|eexists; reflexivity].
    unfold int. destruct (py_int host _); eexists; reflexivity.
Qed.

Lemma download_keeps_printed url output_path w r w' :
  download_with_ytdlp host url output_path w = (r, w') → printed w' = printed w.
Proof.
  unfold download_with_ytdlp, bind, when, os_path_exists, os_remove,
    open_readline, print_stderr, subprocess_run, ret, set_files.
  intros H. repeat (case_match; simplify_eq; simpl in *); reflexivity.
Qed.

Lemma invalid_download_result success output_path w :
  invalid_download host success output_path w =
  (Ok (negb success
       || match files w !! output_path with
          | Some (File data) => Z.of_nat (String.length data) <? 1000
          | Some Dir => dir_size host <? 1000
          | None => true
          end), w).
Proof.
  unfold invalid_download, bind, os_path_exists, os_path_getsize, ret.
  destruct success; simpl; [|reflexivity].
  destruct (files w !! output_path) as [[data|]|] eqn:E; simpl;
    rewrite ?E; reflexivity.
Qed.

Lemma report_and_exit_eq output_path obj w :
  (print obj ;; remove_if_exists host output_path ;; sys_exit 1) w
  = report_and_exit host output_path obj w.
Proof.
  unfold report_and_exit, bind, print, remove_if_exists, os_path_exists,
    os_remove, when, sys_exit, raise, ret, add_printed, set_files, bind; simpl.
  destruct (files w !! output_path) as [[data|]|] eqn:E; simpl;
    rewrite ?E; reflexivity.
Qed.

(** [main] on a full command line, as a function of what directory
    creation and the download step did. *)
Lemma main_eq a0 url start_time end_time output_path rest w :
  main host (a0 :: url :: start_time :: end_time :: output_path :: rest) w =
  match os_makedirs host (os_path_dirname host output_path) w with
  | (Raise e, w1) => (Raise e, w1)
  | (Ok _, w1) =>
      handle host output_path
        match download_with_ytdlp host url output_path w1 with
        | (Raise e, w2) => (Raise e, w2)
        | (Ok success, w2) => after_download host output_path success w2
        end
  end.
Proof.
  unfold main; simpl. unfold bind at 1; simpl. unfold bind at 1.
  destruct (os_makedirs _ _ w) as [[[]|e] w1]; [|reflexivity].
  unfold try_except, handle. unfold bind at 1.
  destruct (download_with_ytdlp host url output_path w1) as [[success|e] w2];
    [|destruct (is_Exception e); [apply report_and_exit_eq|reflexivity]].
  unfold bind at 1. rewrite invalid_download_result. unfold after_download.
  destruct (negb success || _).
  - unfold bind at 1. unfold when at 1. rewrite report_and_exit_eq.
    destruct (report_and_exit host output_path invalid_file_record w2) as [[[]|e] w3] eqn:E.
    + exfalso. unfold report_and_exit in E. repeat case_match; discriminate.
    + destruct (is_Exception e); [apply report_and_exit_eq|reflexivity].
  - unfold bind at 1. unfold when at 1, ret at 1. unfold bind at 1.
    destruct (get_video_resolution host output_path w2) as [[resolution|e] w3].
    + reflexivity.
    + destruct (is_Exception e); [apply report_and_exit_eq|reflexivity].
Qed.

Lemma makedirs_keeps_output name w r w' :
  os_makedirs host name w = (r, w') →
  printed w' = printed w ∧ logged w' = logged w ∧ spawned w' = spawned w.
Proof.
  unfold os_makedirs, set_files. intros H.
  destruct (String.eqb name ""); [simplify_eq; auto|].
  destruct (makedirs_in host _ name (files w)); simplify_eq; auto.
Qed.

(** ** The properties of the specification *)

Lemma resolution_label_cases height :
  (1080 ≤ height → resolution_label height = "1080p")
  ∧ (720 ≤ height < 1080 → resolution_label height = "720p")
  ∧ (480 ≤ height < 720 → resolution_label height = "480p")
  ∧ (height < 480 → resolution_label height = pretty height +:+ "p").
Proof.
  unfold resolution_label. rewrite !Z.geb_leb.
  destruct (Z.leb_spec 1080 height), (Z.leb_spec 720 height),
    (Z.leb_spec 480 height); repeat split; intros; (reflexivity || lia).
Qed.

(** C1. The label reported for a probe that exits with 0 and prints the
    integer [height] is a function of [height] alone: "1080p" from 1080
    up, "720p" from 720, "480p" from 480, and below that the decimal
    rendering of the height followed by "p"; the seven values of the
    specification are instances. *)
Theorem resolution_classification output_path w result g height :
  execute host (ffprobe_cmd output_path) (files w) = (inr result, g) →
  returncode result = 0 →
  py_int host (PyStr.strip (PyStr.decode (stdout result))) = Some height →
  get_video_resolution host output_path w
    = (Ok (resolution_label height), after_probe host output_path w)
  ∧ (1080 ≤ height → resolution_label height = "1080p")
  ∧ (720 ≤ height < 1080 → resolution_label height = "720p")
  ∧ (480 ≤ height < 720 → resolution_label height = "480p")
  ∧ (height < 480 → resolution_label height = pretty height +:+ "p")
  ∧ map resolution_label [1080; 1079; 720; 719; 480; 479; 0]
    = ["1080p"; "720p"; "720p"; "480p"; "480p"; "479p"; "0p"].
Proof.
  intros Hrun Hcode Hint. split.
  - unfold get_video_resolution, try_except, bind, subprocess_run, after_probe.
    rewrite Hrun; simpl. rewrite Hcode; simpl.
    unfold int. rewrite Hint. reflexivity.
  - pose proof (resolution_label_cases height) as (H1 & H2 & H3 & H4).
    repeat split; try assumption; apply H2 || apply H3; assumption.
Qed.

(** C9. With fewer than four positional arguments the script prints one
    failure record whose error is the usage message, exits with status 1,
    starts no sub-process, logs nothing and leaves the file system as it
    was. *)
Theorem usage_error argv f :
  (length argv < 5)%nat →
  let r := run host argv f in
  status r = 1 ∧ traceback r = None
  ∧ printed (final r)
    = [[("success", JBool false);
        ("error",
         JStr "Usage: python download_video.py <url> <start_time> <end_time> <output_path>")]]
  ∧ spawned (final r) = [] ∧ logged (final r) = [] ∧ files (final r) = f.
Proof.
  intros Hlen. unfold run, main.
  assert ((length argv <? 5)%nat = true) as -> by (apply Nat.ltb_lt; exact Hlen).
  repeat split.
Qed.

(** C8. Two command lines that differ only in the start and end time give
    the same run: the same exit status, the same printed records, the same
    log and the same sub-process commands. *)
Theorem times_not_interpreted a0 url start_time end_time start_time' end_time'
    output_path rest f :
  run host (a0 :: url :: start_time :: end_time :: output_path :: rest) f
  = run host (a0 :: url :: start_time' :: end_time' :: output_path :: rest) f.
Proof. unfold run. rewrite !main_eq. reflexivity. Qed.

(** C10. When the output path has an empty [dirname], directory creation
    raises before the [try] block is entered: nothing is printed on
    standard output, no sub-process is started, and the exception reaches
    the interpreter. *)
Theorem bare_file_name_escapes_handler argv output_path f :
  argv !! 4%nat = Some output_path →
  os_path_dirname host output_path = "" →
  let r := run host argv f in
  printed (final r) = []
  ∧ (∃ msg, traceback r = Some (Error FileNotFoundError msg))
  ∧ status r = 1
  ∧ spawned (final r) = [] ∧ files (final r) = f.
Proof.
  intros Hout Hdir.
  destruct argv as [|a0 [|url [|start_time [|end_time [|out rest]]]]];
    try discriminate.
  simpl in Hout. injection Hout as ->.
  unfold run. rewrite main_eq, Hdir. simpl.
  repeat split. eexists; reflexivity.
Qed.

(** The run of a full command line once directory creation and the
    download step have returned. *)
Lemma run_after_download a0 url start_time end_time output_path rest f w1 success w2 :
  os_makedirs host (os_path_dirname host output_path) (initial f) = (Ok tt, w1) →
  download_with_ytdlp host url output_path w1 = (Ok success, w2) →
  main host (a0 :: url :: start_time :: end_time :: output_path :: rest) (initial f)
  = handle host output_path (after_download host output_path success w2)
  ∧ printed w2 = [].
Proof.
  intros Hmk Hdl. rewrite main_eq, Hmk, Hdl. split; [reflexivity|].
  apply download_keeps_printed in Hdl. apply makedirs_keeps_output in Hmk.
  destruct Hmk as (Hp & _). rewrite Hdl, Hp. reflexivity.
Qed.

(** C7. The probe step always returns a label and never raises; the label
    is "unknown" when the probe cannot be started, exits with a non-zero
    status or prints something that [int] rejects; and a run whose
    download passed validation ends with status 0 and one success record,
    which carries the label the probe step returned and the output path,
    whatever the probe did. *)
Theorem probe_never_fails :
  (∀ output_path w, ∃ label,
      get_video_resolution host output_path w
      = (Ok label, after_probe host output_path w)
      ∧ (∀ e g, execute host (ffprobe_cmd output_path) (files w) = (inl e, g) →
           label = "unknown")
      ∧ (∀ result g, execute host (ffprobe_cmd output_path) (files w) = (inr result, g) →
           returncode result ≠ 0 → label = "unknown")
      ∧ (∀ result g, execute host (ffprobe_cmd output_path) (files w) = (inr result, g) →
           py_int host (PyStr.strip (PyStr.decode (stdout result))) = None →
           label = "unknown"))
  ∧ (∀ a0 url start_time end_time output_path rest f w1 w2 size,
      os_makedirs host (os_path_dirname host output_path) (initial f) = (Ok tt, w1) →
      download_with_ytdlp host url output_path w1 = (Ok true, w2) →
      os_path_exists output_path w2 = (Ok true, w2) →
      os_path_getsize host output_path w2 = (Ok size, w2) →
      1000 ≤ size →
      let r := run host (a0 :: url :: start_time :: end_time :: output_path :: rest) f in
      status r = 0 ∧ traceback r = None
      ∧ ∃ label,
          get_video_resolution host output_path w2
          = (Ok label, after_probe host output_path w2)
          ∧ printed (final r)
            = [[("success", JBool true); ("resolution", JStr label);
                ("output_path", JStr output_path)]]).
Proof.
  split.
  - intros output_path w.
    unfold get_video_resolution, try_except, bind, subprocess_run, after_probe.
    destruct (execute host (ffprobe_cmd output_path) (files w)) as [[e|result] g];
      simpl.
    { eexists; split; [reflexivity|]. repeat split; intros; simplify_eq; reflexivity. }
    destruct (returncode result =? 0) eqn:Hcode.
    + unfold int. destruct (py_int host _) as [height|] eqn:Hint; simpl;
        (eexists; split; [reflexivity|]); repeat split; intros; simplify_eq;
        try reflexivity.
      apply Z.eqb_eq in Hcode. contradiction.
    + eexists; split; [reflexivity|]. repeat split; intros; reflexivity.
  - intros a0 url start_time end_time output_path rest f w1 w2 size
      Hmk Hdl Hex Hsize Hbig r. subst r. unfold run.
    destruct (run_after_download a0 url start_time end_time output_path rest
                f w1 true w2 Hmk Hdl) as [-> Hprinted].
    unfold after_download. unfold os_path_exists in Hex.
    unfold os_path_getsize in Hsize.
    destruct (files w2 !! output_path) as [[data|]|]; simplify_eq; simpl.
    + assert ((Z.of_nat (String.length data) <? 1000) = false) as ->
        by (apply Z.ltb_ge; exact Hbig).
      destruct (get_video_resolution_returns output_path w2) as [label Hres].
      rewrite Hres. simpl. rewrite Hprinted. repeat split.
      exists label. split; reflexivity.
    + assert ((dir_size host <? 1000) = false) as -> by (apply Z.ltb_ge; exact Hbig).
      destruct (get_video_resolution_returns output_path w2) as [label Hres].
      rewrite Hres. simpl. rewrite Hprinted. repeat split.
      exists label. split; reflexivity.
Qed.

Lemma failure_records_only output_path obj w r w' :
  handle host output_path (report_and_exit host output_path obj w) = (r, w') →
  exit_status r = 1
  ∧ (∃ more, printed w' = printed w ++ obj :: more
       ∧ ∀ o, o ∈ more → is_failure_record o)
  ∧ (∀ data, files w' !! output_path ≠ Some (File data))
  ∧ (files w !! output_path ≠ Some Dir →
       files w' !! output_path = None ∧ printed w' = printed w ++ [obj]
       ∧ uncaught r = None).
Proof.
  unfold handle. unfold report_and_exit at 1.
  destruct (files w !! output_path) as [[data|]|] eqn:E; simpl;
    unfold report_and_exit; simpl; rewrite ?E; intros H; simplify_eq; simpl.
  - split; [reflexivity|]. split.
    { exists []; split; [reflexivity|]. intros o Ho. inversion Ho. }
    split; [intros d; rewrite lookup_delete_eq; discriminate|].
    intros _. rewrite lookup_delete_eq. auto.
  - split; [reflexivity|]. split.
    { eexists; rewrite <- app_assoc; split; [reflexivity|].
      intros o Ho. apply list_elem_of_singleton in Ho. subst o.
      eexists; reflexivity. }
    split; [intros d; rewrite E; discriminate|].
    intros Hne. contradiction.
  - split; [reflexivity|]. split.
    { exists []; split; [reflexivity|]. intros o Ho. inversion Ho. }
    split; [intros d; rewrite E; discriminate|]. auto.
Qed.

(** C3. After the download step returned: when it returned false, or
    nothing exists at the output path, or the size there is under 1000,
    the run prints the fixed failure record (and failure records only),
    leaves no regular file at the output path and exits with status 1; a
    successful download of exactly 1000 bytes passes the check and is
    reported as a success. *)
Theorem invalid_download_is_reported a0 url start_time end_time output_path
    rest f w1 success w2 :
  os_makedirs host (os_path_dirname host output_path) (initial f) = (Ok tt, w1) →
  download_with_ytdlp host url output_path w1 = (Ok success, w2) →
  let r := run host (a0 :: url :: start_time :: end_time :: output_path :: rest) f in
  ((success = false ∨ files w2 !! output_path = None
     ∨ ∃ size, os_path_getsize host output_path w2 = (Ok size, w2) ∧ size < 1000) →
     status r = 1
     ∧ printed (final r) !! 0%nat = Some invalid_file_record
     ∧ (∀ obj, obj ∈ printed (final r) → is_failure_record obj)
     ∧ (∀ data, files (final r) !! output_path ≠ Some (File data))
     ∧ (files w2 !! output_path ≠ Some Dir →
          files (final r) !! output_path = None
          ∧ printed (final r) = [invalid_file_record] ∧ traceback r = None))
  ∧ (success = true →
     ∀ data, files w2 !! output_path = Some (File data) →
       String.length data = 1000%nat →
       status r = 0
       ∧ ∃ resolution, printed (final r) = [success_record resolution output_path]).
Proof.
  intros Hmk Hdl r. subst r. unfold run.
  destruct (run_after_download a0 url start_time end_time output_path rest
              f w1 success w2 Hmk Hdl) as [-> Hprinted].
  unfold after_download. split.
  - intros Hbad.
    assert (negb success
            || match files w2 !! output_path with
               | Some (File data) => Z.of_nat (String.length data) <? 1000
               | Some Dir => dir_size host <? 1000
               | None => true
               end = true) as ->.
    { destruct Hbad as [->|[->|(size & Hsize & Hlt)]]; [reflexivity| |].
      - apply orb_true_r.
      - apply orb_true_iff; right. unfold os_path_getsize in Hsize.
        destruct (files w2 !! output_path) as [[data|]|]; simplify_eq;
          try reflexivity; apply Z.ltb_lt; exact Hlt. }
    destruct (handle host output_path
                (report_and_exit host output_path invalid_file_record w2))
      as [res w3] eqn:E.
    apply failure_records_only in E.
    destruct E as (Hst & (more & Hpr & Hmore) & Hfile & Hclean).
    rewrite Hprinted in Hpr; simpl in Hpr.
    simpl. split; [exact Hst|]. split; [rewrite Hpr; reflexivity|].
    split.
    { intros obj Hobj. rewrite Hpr in Hobj.
      apply elem_of_cons in Hobj as [->|Hobj]; [eexists; reflexivity|auto]. }
    split; [exact Hfile|].
    intros Hne. destruct (Hclean Hne) as (Hnone & Hone & Hunc).
    rewrite Hprinted in Hone. auto.
  - intros -> data Hdata Hlen. rewrite Hdata, Hlen. simpl.
    destruct (get_video_resolution_returns output_path w2) as [label ->].
    simpl. rewrite Hprinted. split; [reflexivity|]. eexists; reflexivity.
Qed.

Lemma failure_record_not_success obj :
  is_failure_record obj → field "success" obj ≠ Some (JBool true).
Proof. intros [msg ->]. simpl. discriminate. Qed.

Lemma report_and_exit_printed output_path obj w r w' :
  report_and_exit host output_path obj w = (r, w') → printed w' = printed w ++ [obj].
Proof.
  unfold report_and_exit. intros H.
  repeat (case_match; simplify_eq; simpl in *); reflexivity.
Qed.

(** C4, as the code has it. Every record printed with [success] true is
    the only record of a run that exits with status 0, and it carries the
    output path of the command line; directory creation and the download
    step returned, the latter with true, and when the size check ran,
    just before the probe was started, the output path held a regular
    file of at least 1000 bytes or a directory whose reported size is at
    least 1000. The world in which the record is printed is the one the
    probe program left, so the path is as checked if that program did not
    touch it. *)
Theorem success_record_after_validation argv f obj :
  let r := run host argv f in
  obj ∈ printed (final r) →
  field "success" obj = Some (JBool true) →
  ∃ url output_path label w1 w2 size,
    argv !! 1%nat = Some url ∧ argv !! 4%nat = Some output_path
    ∧ obj = [("success", JBool true); ("resolution", JStr label);
             ("output_path", JStr output_path)]
    ∧ printed (final r) = [obj] ∧ status r = 0
    ∧ os_makedirs host (os_path_dirname host output_path) (initial f) = (Ok tt, w1)
    ∧ download_with_ytdlp host url output_path w1 = (Ok true, w2)
    ∧ os_path_exists output_path w2 = (Ok true, w2)
    ∧ os_path_getsize host output_path w2 = (Ok size, w2)
    ∧ 1000 ≤ size
    ∧ ((∃ data, files w2 !! output_path = Some (File data)
                ∧ size = Z.of_nat (String.length data))
       ∨ (files w2 !! output_path = Some Dir ∧ size = dir_size host))
    ∧ final r = add_printed obj (after_probe host output_path w2)
    ∧ ((execute host (ffprobe_cmd output_path) (files w2)).2 !! output_path
       = files w2 !! output_path →
       files (final r) !! output_path = files w2 !! output_path).
Proof.
  intros r Hin Hsucc. subst r. unfold run in *.
  destruct argv as [|a0 [|url [|start_time [|end_time [|out rest]]]]];
    try (simpl in Hin; apply list_elem_of_singleton in Hin; subst obj;
         discriminate Hsucc).
  rewrite main_eq in *.
  destruct (os_makedirs host (os_path_dirname host out) (initial f))
    as [[[]|e] w1] eqn:Hmk;
    pose proof (makedirs_keeps_output _ _ _ _ Hmk) as (Hp1 & _); simpl in Hp1.
  2:{ simpl in Hin. rewrite Hp1 in Hin. inversion Hin. }
  destruct (download_with_ytdlp host url out w1) as [[success|e] w2] eqn:Hdl;
    pose proof (download_keeps_printed _ _ _ _ _ Hdl) as Hp2; rewrite Hp1 in Hp2.
  2:{ exfalso. unfold handle in Hin. destruct (is_Exception e).
      - destruct (report_and_exit host out (error_record e) w2) as [res w3] eqn:E.
        apply report_and_exit_printed in E. simpl in Hin.
        rewrite E, Hp2 in Hin. apply list_elem_of_singleton in Hin. subst obj.
        discriminate Hsucc.
      - simpl in Hin. rewrite Hp2 in Hin. inversion Hin. }
  unfold after_download in *.
  destruct (negb success || _) eqn:Hinvalid.
  - exfalso.
    destruct (handle host out (report_and_exit host out invalid_file_record w2))
      as [res w3] eqn:E.
    apply failure_records_only in E as (_ & (more & Hpr & Hmore) & _).
    simpl in Hin. rewrite Hpr, Hp2 in Hin. simpl in Hin.
    apply elem_of_cons in Hin as [->|Hin]; [discriminate Hsucc|].
    exact (failure_record_not_success _ (Hmore _ Hin) Hsucc).
  - destruct (get_video_resolution_returns out w2) as [label Hres].
    rewrite Hres in *. cbn [fst snd status final exit_status] in *.
    apply orb_false_iff in Hinvalid as [Hok Hsize].
    apply negb_false_iff in Hok. subst success.
    assert (obj = success_record label out) as ->.
    { unfold add_printed in Hin. simpl in Hin. rewrite Hp2 in Hin.
      apply list_elem_of_singleton in Hin. exact Hin. }
    exists url, out, label, w1, w2.
    unfold os_path_exists, os_path_getsize.
    destruct (files w2 !! out) as [[data|]|] eqn:Hnode; [| |discriminate Hsize];
      apply Z.ltb_ge in Hsize; eexists;
      repeat match goal with |- _ ∧ _ => split end;
      try reflexivity; try exact Hmk; try exact Hdl; try exact Hsize;
      try (simpl; rewrite Hp2; reflexivity); try (intros Hkeep; exact Hkeep);
      eauto.
Qed.

Lemma insert_cookie_arguments (a b c d e u x y : string) :
  PyStr.insert (-1) y (PyStr.insert (-1) x [a; b; c; d; e; u])
  = [a; b; c; d; e; x; y; u].
Proof. reflexivity. Qed.

(** Closes a goal about the first line a step added to the log. *)
Ltac first_logged :=
  rewrite <- ?app_assoc; simpl; apply list_lookup_middle; reflexivity.

(** C6, as the code has it. When nothing at the output path stands in the
    way of the download step, the command handed to the downloader is the
    plain one, or the plain one with [--cookies] and the cookie path
    inserted just before the URL; the second is chosen exactly when the
    cookie path is a regular file whose first line, read as UTF-8 with
    undecodable bytes dropped and stripped of surrounding white space,
    starts with the cookie-jar header. A cookie file whose first line
    does not start with the header makes the warning the first line
    logged, and the plain command is run; a directory at the cookie path
    makes [open] raise and no program is started. *)
Theorem cookie_flag_rule url output_path w r w' :
  files w !! output_path ≠ Some Dir →
  download_with_ytdlp host url output_path w = (r, w') →
  let g := delete output_path (files w) in
  let plain :=
    [YTDLP_PATH host; "-f"; format_selector; "-o"; output_path; url] in
  let with_cookies :=
    [YTDLP_PATH host; "-f"; format_selector; "-o"; output_path;
     "--cookies"; cookies_path host; url] in
  match g !! cookies_path host with
  | Some (File data) =>
      if PyStr.startswith (PyStr.strip (PyStr.readline (PyStr.decode data)))
           (PyStr.decode cookie_header)
      then spawned w' = spawned w ++ [with_cookies]
           ∧ logged w' !! length (logged w)
             = Some ("Running command: " +:+ PyStr.join " " with_cookies)
      else spawned w' = spawned w ++ [plain]
           ∧ logged w' !! length (logged w) = Some cookie_warning
  | Some Dir =>
      spawned w' = spawned w
      ∧ r = Raise (os_error host (failure_class host OpenDirectory)
                     (cookies_path host))
  | None =>
      spawned w' = spawned w ++ [plain]
      ∧ logged w' !! length (logged w)
        = Some ("Running command: " +:+ PyStr.join " " plain)
  end.
Proof.
  intros Hnodir Hdl g plain with_cookies.
  assert (∃ w0, (present <- os_path_exists output_path ;;
                 when present (os_remove host output_path)) w = (Ok tt, w0)
                ∧ files w0 = g ∧ logged w0 = logged w ∧ spawned w0 = spawned w)
    as (w0 & Hpre & Hg & Hlog & Hsp).
  { unfold bind, os_path_exists, when, os_remove, ret. subst g.
    destruct (files w !! output_path) as [[data|]|] eqn:E; simpl; rewrite ?E.
    - eexists; repeat split.
    - contradiction.
    - eexists; repeat split. simpl. symmetry. apply delete_id. exact E. }
  unfold download_with_ytdlp in Hdl. unfold bind at 1 in Hdl.
  unfold bind at 1 in Hpre. unfold bind at 1 in Hdl.
  destruct (os_path_exists output_path w) as [[present|e] wp]; [|discriminate].
  rewrite Hpre in Hdl. clear Hpre.
  unfold bind, os_path_exists, open_readline, print_stderr, subprocess_run,
    ret in Hdl.
  clearbody g. subst g. rewrite <- Hlog, <- Hsp.
  destruct (files w0 !! cookies_path host) as [[data|]|] eqn:E;
    simpl in Hdl; rewrite ?E in Hdl; simpl in Hdl.
  - destruct (PyStr.startswith _ _); simpl in Hdl;
      rewrite ?insert_cookie_arguments in Hdl;
      destruct (execute host _ (files w0)) as [[e|result] g'];
      simplify_eq; simpl; (split; [reflexivity|first_logged]).
  - simplify_eq. split; reflexivity.
  - destruct (execute host _ (files w0)) as [[e|result] g'];
      simplify_eq; simpl; (split; [reflexivity|first_logged]).
Qed.

(** X13. Inside the [try] block the handler does its work: an [Exception]
    raised by the download step is printed as the only record, no regular
    file stays at the output path, and the exit status is 1. *)
Lemma exception_in_try_is_reported a0 url start_time end_time output_path
    rest f w1 cls msg w2 :
  os_makedirs host (os_path_dirname host output_path) (initial f) = (Ok tt, w1) →
  download_with_ytdlp host url output_path w1 = (Raise (Error cls msg), w2) →
  let r := run host (a0 :: url :: start_time :: end_time :: output_path :: rest) f in
  status r = 1
  ∧ printed (final r) = [[("success", JBool false); ("error", JStr msg)]]
  ∧ ∀ data, files (final r) !! output_path ≠ Some (File data).
Proof.
  intros Hmk Hdl r. subst r. unfold run. rewrite main_eq, Hmk, Hdl.
  apply download_keeps_printed in Hdl. apply makedirs_keeps_output in Hmk.
  destruct Hmk as (Hp & _). simpl in Hp. rewrite Hp in Hdl.
  unfold handle, report_and_exit; simpl.
  destruct (files w2 !! output_path) as [[data|]|] eqn:E; simpl; rewrite Hdl;
    repeat split; intros d; rewrite ?lookup_delete_eq, ?E; discriminate.
Qed.

End Properties.

(** ** POSIX paths *)

(** A name without a slash has no directory part. *)
Lemma posix_dirname_bare p : PosixPath.has_sep p = false → PosixPath.dirname p = "".
Proof.
  intros H. unfold PosixPath.dirname.
  assert (PosixPath.upto_last_sep p = "") as ->; [|reflexivity].
  induction p as [|a r IH]; [reflexivity|]. simpl in *.
  apply orb_false_iff in H as [Ha Hr]. rewrite (IH Hr), Ha. reflexivity.
Qed.

(** ** The download step in closed form *)

Section Coverage.

Variable host : Host.

Lemma set_files_same w : set_files (files w) w = w.
Proof. destruct w; reflexivity. Qed.

Lemma download_eq url output_path w :
  download_with_ytdlp host url output_path w
  = download_outcome host url output_path w.
Proof.
  destruct w as [f pr lg sp].
  unfold download_with_ytdlp, download_outcome, download_cmd, announce,
    cookie_accepted, cookie_refused, header_found, plain_cmd, cookies_cmd,
    bind, when,
    os_path_exists, os_remove, open_readline, print_stderr, subprocess_run,
    ret, set_files; simpl.
  destruct (f !! output_path) as [[data|]|] eqn:Hout; simpl; rewrite ?Hout;
    simpl; [| reflexivity | rewrite (delete_id f output_path Hout)].
  all: match goal with
       | |- context [?g !! cookies_path host] =>
           destruct (g !! cookies_path host) as [[cdata|]|] eqn:Hc
       end; simpl; rewrite ?Hc; simpl; try reflexivity.
  all: try destruct (PyStr.startswith _ _); simpl;
       rewrite ?insert_cookie_arguments.
  all: match goal with
       | |- context [execute host ?c ?g] =>
           destruct (execute host c g) as [[e|result] g']
       end; simpl; rewrite <- ?app_assoc; reflexivity.
Qed.

Lemma report_and_exit_spawned output_path obj w r w' :
  report_and_exit host output_path obj w = (r, w') → spawned w' = spawned w.
Proof.
  unfold report_and_exit. intros H.
  repeat (case_match; simplify_eq; simpl in *); reflexivity.
Qed.

Lemma handle_report_spawned output_path obj w r w' :
  handle host output_path (report_and_exit host output_path obj w) = (r, w') →
  spawned w' = spawned w.
Proof.
  unfold handle.
  destruct (report_and_exit host output_path obj w) as [[[]|e] w1] eqn:E;
    apply report_and_exit_spawned in E.
  - intros; simplify_eq; exact E.
  - destruct (is_Exception e); [|intros; simplify_eq; exact E].
    intros H. apply report_and_exit_spawned in H. simpl in H. congruence.
Qed.

(** X1. Every argument after the fourth is ignored: two command lines
    that agree up to the output path give the same run. *)
Theorem surplus_arguments_ignored a0 url start_time end_time output_path
    rest rest' f :
  run host (a0 :: url :: start_time :: end_time :: output_path :: rest) f
  = run host (a0 :: url :: start_time :: end_time :: output_path :: rest') f.
Proof. unfold run. rewrite !main_eq. reflexivity. Qed.

Lemma append_p_is_not_unknown s : s +:+ "p" ≠ "unknown".
Proof.
  destruct s as [|a1 [|a2 [|a3 [|a4 [|a5 [|a6 [|a7 s]]]]]]]; simpl;
    intros H; repeat (injection H as _ H); try discriminate.
  destruct s; discriminate.
Qed.

Lemma label_is_not_unknown height : resolution_label height ≠ "unknown".
Proof.
  unfold resolution_label. repeat case_match; try discriminate.
  apply append_p_is_not_unknown.
Qed.

(** X2. The probe step prints nothing, logs nothing and starts exactly
    the ffprobe command; the label it returns is "unknown" if and only if
    ffprobe could not be started, exited with a non-zero status or printed
    something that [int] rejects. *)
Theorem unknown_exactly_when_probe_failed output_path w :
  ∃ label w',
    get_video_resolution host output_path w = (Ok label, w')
    ∧ printed w' = printed w ∧ logged w' = logged w
    ∧ spawned w' = spawned w ++ [ffprobe_cmd output_path]
    ∧ (label = "unknown" ↔
       match (execute host (ffprobe_cmd output_path) (files w)).1 with
       | inl _ => True
       | inr result =>
           returncode result ≠ 0
           ∨ py_int host (PyStr.strip (PyStr.decode (stdout result))) = None
       end).
Proof.
  unfold get_video_resolution, try_except, bind, subprocess_run.
  destruct (execute host (ffprobe_cmd output_path) (files w)) as [[e|result] g];
    simpl.
  { eexists _, _. repeat split. }
  destruct (returncode result =? 0) eqn:Hcode.
  - apply Z.eqb_eq in Hcode. unfold int.
    destruct (py_int host _) as [height|]; simpl; eexists _, _;
      (split; [reflexivity|]); repeat split; auto.
    + intros H. exfalso. exact (label_is_not_unknown height H).
    + intros [H|H]; [contradiction|discriminate].
  - apply Z.eqb_neq in Hcode. eexists _, _. repeat split. auto.
Qed.

Lemma append_p_inj s1 s2 : s1 +:+ "p" = s2 +:+ "p" → s1 = s2.
Proof.
  revert s2. induction s1 as [|a s1 IH]; intros [|b s2]; simpl; intros H.
  - reflexivity.
  - injection H as _ H. destruct s2; discriminate.
  - injection H as _ H. destruct s1; discriminate.
  - injection H as -> H. f_equal. apply IH. exact H.
Qed.

Lemma small_label_is_no_tier height n :
  height < 480 → 480 ≤ n → pretty height +:+ "p" ≠ pretty n +:+ "p".
Proof.
  intros Hlt Hge H. apply append_p_inj in H.
  apply (inj pretty) in H. lia.
Qed.

(** X3. The label tells the class of the height: it is "1080p" exactly
    from 1080 up, "720p" exactly from 720 to 1079, "480p" exactly from 480
    to 719, and two heights below 480 with the same label are equal. *)
Theorem label_determines_height_class height :
  (resolution_label height = "1080p" ↔ 1080 ≤ height)
  ∧ (resolution_label height = "720p" ↔ 720 ≤ height < 1080)
  ∧ (resolution_label height = "480p" ↔ 480 ≤ height < 720)
  ∧ (∀ other, height < 480 → other < 480 →
       resolution_label height = resolution_label other → height = other).
Proof.
  pose proof (resolution_label_cases height) as (H1 & H2 & H3 & H4).
  assert (height < 480 → ∀ n, 480 ≤ n →
          resolution_label height ≠ pretty n +:+ "p") as Hsmall.
  { intros Hlt n Hn. rewrite (H4 Hlt). apply small_label_is_no_tier; assumption. }
  repeat split.
  - intros H. destruct (Z_lt_le_dec height 480) as [Hlt|Hge].
    { exfalso. exact (Hsmall Hlt 1080 ltac:(lia) H). }
    destruct (Z_lt_le_dec height 720) as [Hlt|Hge2];
      [rewrite H3 in H by lia; discriminate|].
    destruct (Z_lt_le_dec height 1080) as [Hlt|Hge3];
      [rewrite H2 in H by lia; discriminate|assumption].
  - exact H1.
  - destruct (Z_lt_le_dec height 480) as [Hlt|Hge].
    { exfalso. exact (Hsmall Hlt 720 ltac:(lia) H). }
    destruct (Z_lt_le_dec height 720) as [Hlt|Hge2];
      [rewrite H3 in H by lia; discriminate|assumption].
  - destruct (Z_lt_le_dec height 1080) as [Hlt|Hge]; [assumption|].
    rewrite H1 in H by lia. discriminate.
  - exact H2.
  - destruct (Z_lt_le_dec height 480) as [Hlt|Hge]; [|assumption].
    exfalso. exact (Hsmall Hlt 480 ltac:(lia) H).
  - destruct (Z_lt_le_dec height 720) as [Hlt|Hge]; [assumption|].
    destruct (Z_lt_le_dec height 1080) as [Hlt|Hge3];
      [rewrite H2 in H by lia|rewrite H1 in H by lia]; discriminate.
  - exact H3.
  - intros other Hlt Hlt' H.
    pose proof (resolution_label_cases other) as (_ & _ & _ & H4').
    rewrite (H4 Hlt), (H4' Hlt') in H. apply append_p_inj in H.
    exact (inj pretty _ _ H).
Qed.

(** X4. Unless a directory is in the way, the download step removes
    whatever is at the output path before it starts the downloader: either
    no program is started and the path is empty, or the one program
    started runs on the file system without the old output, and what it
    leaves is the file system the step returns. *)
Theorem downloader_starts_without_old_output url output_path w r w' :
  files w !! output_path ≠ Some Dir →
  download_with_ytdlp host url output_path w = (r, w') →
  (spawned w' = spawned w ∧ files w' !! output_path = None)
  ∨ ∃ cmd, spawned w' = spawned w ++ [cmd]
           ∧ files w' = (execute host cmd (delete output_path (files w))).2.
Proof.
  intros Hnodir. rewrite download_eq. unfold download_outcome.
  assert (∀ k : res bool * World,
            match files w !! output_path with
            | Some Dir =>
                (Raise (os_error host (failure_class host UnlinkDirectory) output_path), w)
            | _ => k
            end = k) as -> by (intros k; repeat case_match; congruence).
  set (g := delete output_path (files w)).
  destruct (g !! cookies_path host) as [[cdata|]|].
  2:{ intros H; simplify_eq. left. split; [reflexivity|].
      simpl. subst g. apply lookup_delete_eq. }
  all: destruct (execute host (download_cmd host g url output_path) g)
         as [[e|result] g'] eqn:E; simpl; intros H; simplify_eq; right;
       eexists; (split; [reflexivity|]); simpl; rewrite E; reflexivity.
Qed.

(** X5. A downloader that writes nothing to the output path makes the
    run fail, however large a file was there before: once directory
    creation succeeded and no directory is at the output path, the run
    prints failure records only, exits with status 1 and leaves the path
    empty. *)
Theorem idle_downloader_is_a_failure a0 url start_time end_time output_path
    rest f w1 :
  os_makedirs host (os_path_dirname host output_path) (initial f) = (Ok tt, w1) →
  files w1 !! output_path ≠ Some Dir →
  raises_exceptions_only host →
  (∀ cmd g, g !! output_path = None → (execute host cmd g).2 !! output_path = None) →
  let r := run host (a0 :: url :: start_time :: end_time :: output_path :: rest) f in
  status r = 1
  ∧ (∀ obj, obj ∈ printed (final r) → is_failure_record obj)
  ∧ files (final r) !! output_path = None.
Proof.
  intros Hmk Hnodir Hexc Hidle r. subst r. unfold run.
  rewrite main_eq, Hmk, download_eq.
  apply makedirs_keeps_output in Hmk as (Hp & _). simpl in Hp.
  unfold download_outcome.
  assert (∀ k : res bool * World,
            match files w1 !! output_path with
            | Some Dir =>
                (Raise (os_error host (failure_class host UnlinkDirectory) output_path), w1)
            | _ => k
            end = k) as -> by (intros k; repeat case_match; congruence).
  set (g := delete output_path (files w1)).
  assert (g !! output_path = None) as Hg by (subst g; apply lookup_delete_eq).
  assert (∀ obj w, files w !! output_path = None → printed w = [] →
          let x := report_and_exit host output_path obj w in
          x.1 = Raise (SystemExit 1) ∧ printed x.2 = [obj]
          ∧ files x.2 !! output_path = None) as Hreport.
  { intros obj w Hw Hpw. unfold report_and_exit. rewrite Hw. simpl.
    rewrite Hpw. auto. }
  destruct (g !! cookies_path host) as [[cdata|]|].
  2:{ simpl.
      destruct (Hreport (error_record (os_error host (failure_class host OpenDirectory)
                  (cookies_path host))) (set_files g w1)
                  Hg Hp) as (H1 & H2 & H3).
      destruct (report_and_exit _ _ _ _) as [x1 x2]; simpl in *. subst x1. simpl.
      rewrite H2. split; [reflexivity|]. split; [|exact H3].
      intros obj Ho. apply list_elem_of_singleton in Ho. subst obj.
      eexists; reflexivity. }
  all: pose proof (Hidle (download_cmd host g url output_path) g Hg) as Hstill;
       destruct (execute host (download_cmd host g url output_path) g)
         as [[e|result] g'] eqn:E; simpl in Hstill |- *.
  all: try (pose proof (Hexc _ _ _ _ E) as He; rewrite He;
            match goal with
            | |- context [report_and_exit ?h ?p ?o ?w] =>
                destruct (Hreport o w Hstill Hp) as (H1 & H2 & H3);
                destruct (report_and_exit h p o w) as [x1 x2]
            end; simpl in *; subst x1; simpl; rewrite H2;
            (split; [reflexivity|]); (split; [|exact H3]);
            intros obj Ho; apply list_elem_of_singleton in Ho; subst obj;
            eexists; reflexivity).
  all: unfold after_download; simpl; rewrite Hstill, orb_true_r;
       match goal with
       | |- context [report_and_exit ?h ?p ?o ?w] =>
           destruct (Hreport o w Hstill Hp) as (H1 & H2 & H3);
           destruct (report_and_exit h p o w) as [x1 x2]
       end; simpl in *; subst x1; simpl; rewrite H2;
       (split; [reflexivity|]); (split; [|exact H3]);
       intros obj Ho; apply list_elem_of_singleton in Ho; subst obj;
       eexists; reflexivity.
Qed.

Lemma download_raises_exceptions url output_path w e w' :
  raises_exceptions_only host →
  download_with_ytdlp host url output_path w = (Raise e, w') →
  is_Exception e = true.
Proof.
  intros Hexc. rewrite download_eq. unfold download_outcome.
  repeat case_match; intros; simplify_eq; try reflexivity.
  all: match goal with
  | H : (execute host ?c ?g).1 = inl _ |- _ =>
      destruct (execute host c g) as [x g'] eqn:E; simpl in H; subst x;
      exact (Hexc _ _ _ _ E)
  end.
Qed.

Lemma report_and_exit_status output_path obj w r w' :
  report_and_exit host output_path obj w = (r, w') →
  exit_status r = 1 ∧ printed w' = printed w ++ [obj].
Proof.
  unfold report_and_exit. intros H.
  repeat (case_match; simplify_eq; simpl in *); auto.
Qed.

Lemma makedirs_in_raises_errors fuel name f e :
  makedirs_in host fuel name f = inl e → is_Exception e = true.
Proof.
  revert name. induction fuel as [|k IH]; intros name; simpl;
    repeat case_match; intros; simplify_eq; try reflexivity.
  eapply IH; eassumption.
Qed.

Lemma makedirs_raises_exceptions name w e w' :
  os_makedirs host name w = (Raise e, w') → exit_status (Raise e) = 1.
Proof.
  unfold os_makedirs. destruct (String.eqb name "").
  { intros; simplify_eq; reflexivity. }
  destruct (makedirs_in host _ name (files w)) as [e0|f] eqn:E;
    intros; simplify_eq.
  apply makedirs_in_raises_errors in E. destruct e; [reflexivity|discriminate].
Qed.

(** X6. When external programs raise nothing but [Exception]s, the exit
    status of a run is 0 or 1, and it is 0 exactly when what was printed
    is one success record. *)
Theorem exit_status_agrees_with_record argv f :
  raises_exceptions_only host →
  let r := run host argv f in
  (status r = 0 ∨ status r = 1)
  ∧ (status r = 0 ↔
     ∃ label output_path, printed (final r) = [success_record label output_path]).
Proof.
  intros Hexc r. subst r. unfold run.
  assert (∀ (x : res unit) (l : list json),
            exit_status x = 1 →
            (∀ label output_path, l ≠ [success_record label output_path]) →
            (exit_status x = 0 ∨ exit_status x = 1)
            ∧ (exit_status x = 0 ↔
               ∃ label output_path, l = [success_record label output_path]))
    as Hfail.
  { intros x l Hx Hl. split; [right; exact Hx|]. split; [lia|].
    intros (label & output_path & H). exfalso. exact (Hl _ _ H). }
  destruct argv as [|a0 [|url [|start_time [|end_time [|out rest]]]]];
    try (apply Hfail; [reflexivity|discriminate]).
  rewrite main_eq.
  destruct (os_makedirs host (os_path_dirname host out) (initial f))
    as [[[]|e] w1] eqn:Hmk.
  2:{ pose proof (makedirs_raises_exceptions _ _ _ _ Hmk) as He.
      apply makedirs_keeps_output in Hmk as (Hp & _).
      cbn [status final]. apply Hfail; [exact He|]. rewrite Hp. discriminate. }
  apply makedirs_keeps_output in Hmk as (Hp1 & _); simpl in Hp1.
  destruct (download_with_ytdlp host url out w1) as [[success|e] w2] eqn:Hdl.
  2:{ pose proof (download_raises_exceptions _ _ _ _ _ Hexc Hdl) as He.
      apply download_keeps_printed in Hdl. rewrite Hp1 in Hdl.
      unfold handle. rewrite He.
      destruct (report_and_exit host out (error_record e) w2) as [x w3] eqn:E.
      apply report_and_exit_status in E as (Hx & Hp3). cbn [status final].
      apply Hfail; [exact Hx|]. rewrite Hp3, Hdl. discriminate. }
  apply download_keeps_printed in Hdl. rewrite Hp1 in Hdl.
  unfold after_download.
  destruct (negb success || _).
  - destruct (handle host out (report_and_exit host out invalid_file_record w2))
      as [x w3] eqn:E.
    apply failure_records_only in E as (Hx & (more & Hpr & _) & _).
    cbn [status final]. apply Hfail; [exact Hx|]. rewrite Hpr, Hdl. discriminate.
  - destruct (get_video_resolution_returns host out w2) as [label ->].
    simpl. rewrite Hdl. split; [left; reflexivity|].
    split; [intros _; eexists _, _; reflexivity|reflexivity].
Qed.

(** X7. With directory creation done, external programs raising nothing
    but [Exception]s and no directory at the output path once the download
    step is over, the run prints exactly one record and ends without a
    traceback. *)
Theorem one_record_unless_directory a0 url start_time end_time output_path
    rest f w1 outcome w2 :
  os_makedirs host (os_path_dirname host output_path) (initial f) = (Ok tt, w1) →
  download_with_ytdlp host url output_path w1 = (outcome, w2) →
  raises_exceptions_only host →
  files w2 !! output_path ≠ Some Dir →
  let r := run host (a0 :: url :: start_time :: end_time :: output_path :: rest) f in
  length (printed (final r)) = 1%nat ∧ traceback r = None.
Proof.
  intros Hmk Hdl Hexc Hnodir r. subst r. unfold run.
  rewrite main_eq, Hmk, Hdl.
  apply makedirs_keeps_output in Hmk as (Hp1 & _); simpl in Hp1.
  pose proof (download_keeps_printed _ _ _ _ _ _ Hdl) as Hp2. rewrite Hp1 in Hp2.
  destruct outcome as [success|e].
  - unfold after_download. destruct (negb success || _).
    + destruct (handle host output_path
                  (report_and_exit host output_path invalid_file_record w2))
        as [x w3] eqn:E.
      apply failure_records_only in E as (_ & _ & _ & Hclean).
      destruct (Hclean Hnodir) as (_ & Hone & Hunc). simpl.
      rewrite Hone, Hp2. split; [reflexivity|exact Hunc].
    + destruct (get_video_resolution_returns host output_path w2) as [label ->].
      simpl. rewrite Hp2. split; reflexivity.
  - pose proof (download_raises_exceptions _ _ _ _ _ Hexc Hdl) as He.
    unfold handle. rewrite He. unfold report_and_exit.
    destruct (files w2 !! output_path) as [[data|]|]; [|contradiction|];
      simpl; rewrite Hp2; split; reflexivity.
Qed.

(** X8. A run starts at most two programs, in a fixed order and without
    retries: nothing, or the download command (plain or with the cookie
    flag) alone, or the download command followed by the probe of the
    output path; and the probe is started only in runs that end with the
    success record and status 0. *)
Theorem programs_started_in_order a0 url start_time end_time output_path rest f :
  let r := run host (a0 :: url :: start_time :: end_time :: output_path :: rest) f in
  spawned (final r) = []
  ∨ ∃ cmd,
      (cmd = plain_cmd host url output_path ∨ cmd = cookies_cmd host url output_path)
      ∧ (spawned (final r) = [cmd]
         ∨ (spawned (final r) = [cmd; ffprobe_cmd output_path]
            ∧ status r = 0
            ∧ ∃ label, printed (final r) = [success_record label output_path])).
Proof.
  intros r. subst r. unfold run. rewrite main_eq.
  destruct (os_makedirs host (os_path_dirname host output_path) (initial f))
    as [[[]|e] w1] eqn:Hmk;
    apply makedirs_keeps_output in Hmk as (Hp1 & _ & Hs1); simpl in Hp1, Hs1.
  2:{ left. exact Hs1. }
  rewrite download_eq. unfold download_outcome.
  assert (∀ e w, spawned w = [] →
            spawned (handle host output_path (Raise e, w)).2 = []) as Hraise.
  { intros e w Hw. unfold handle. destruct (is_Exception e); [|exact Hw].
    destruct (report_and_exit host output_path (error_record e) w) as [x w3] eqn:E.
    apply report_and_exit_spawned in E. simpl. congruence. }
  destruct (files w1 !! output_path) as [[data|]|] eqn:Hout.
  2:{ left. specialize (Hraise (os_error host (failure_class host UnlinkDirectory)
                                  output_path) w1 Hs1).
      destruct (handle _ _ _). exact Hraise. }
  all: set (g := delete output_path (files w1));
       destruct (g !! cookies_path host) as [[cdata|]|] eqn:Hc.
  2,5:
    left;
    specialize (Hraise (os_error host (failure_class host OpenDirectory)
                          (cookies_path host))
                  (set_files g w1) Hs1);
    destruct (handle _ _ _); exact Hraise.
  all: right; exists (download_cmd host g url output_path);
       (split; [unfold download_cmd; destruct (cookie_accepted host g); auto|]);
       set (cmd := download_cmd host g url output_path);
       destruct (execute host cmd g) as [[e|result] g'] eqn:E; simpl.
  all: try (left; unfold handle; destruct (is_Exception e);
            [|simpl; rewrite Hs1; reflexivity];
            match goal with
            | |- context [report_and_exit ?h ?p ?o ?w] =>
                destruct (report_and_exit h p o w) as [x w3] eqn:E3;
                apply report_and_exit_spawned in E3
            end; simpl in *; rewrite E3, Hs1; reflexivity).
  all: unfold after_download; simpl; destruct (negb (returncode result =? 0) || _).
  all: try (left;
            match goal with
            | |- context [handle ?h ?p (report_and_exit ?h ?p ?o ?w)] =>
                destruct (handle h p (report_and_exit h p o w)) as [x w3] eqn:E3;
                apply handle_report_spawned in E3
            end; simpl in *; rewrite E3, Hs1; reflexivity).
  all: right;
       match goal with
       | |- context [get_video_resolution host ?p ?w] =>
           destruct (get_video_resolution_returns host p w) as [label ->]
       end; simpl; rewrite Hs1, Hp1; repeat split; eexists; reflexivity.
Qed.

(** X9. When the download step returns, it returns true exactly when the
    downloader exited with status 0, whatever the downloader wrote; it
    printed nothing on standard output, and the last three lines it logged
    are the command and the two captured streams, preceded by at most the
    cookie warning. *)
Theorem download_result_and_log url output_path w success w' :
  download_with_ytdlp host url output_path w = (Ok success, w') →
  ∃ cmd result before,
    (execute host cmd (delete output_path (files w))).1 = inr result
    ∧ success = (returncode result =? 0)
    ∧ printed w' = printed w
    ∧ spawned w' = spawned w ++ [cmd]
    ∧ (before = [] ∨ before = [cookie_warning])
    ∧ logged w' = logged w ++ before
                  ++ ["Running command: " +:+ PyStr.join " " cmd;
                      "yt-dlp stdout: " +:+ stdout result;
                      "yt-dlp stderr: " +:+ stderr result].
Proof.
  rewrite download_eq. unfold download_outcome, announce.
  set (g := delete output_path (files w)).
  destruct (files w !! output_path) as [[data|]|]; [|discriminate|].
  all: destruct (g !! cookies_path host) as [[cdata|]|]; [|discriminate|].
  all: destruct ((execute host (download_cmd host g url output_path) g).1)
         as [e|result] eqn:E; [discriminate|].
  all: intros H; simplify_eq; simpl;
       exists (download_cmd host g url output_path), result,
         (if cookie_refused host g then [cookie_warning] else []);
       repeat split; try exact E;
       [destruct (cookie_refused host g); auto
       |rewrite <- !app_assoc; reflexivity].
Qed.

(** X10. When a directory is at the output path, no program is started:
    the download step raises while removing it, the handler prints the
    text of that error as a failure record, and its own attempt to remove
    the path raises the same error again, so the run ends with a
    traceback, status 1 and the file system as directory creation left
    it. *)
Theorem directory_at_output_path a0 url start_time end_time output_path rest f w1 :
  os_makedirs host (os_path_dirname host output_path) (initial f) = (Ok tt, w1) →
  files w1 !! output_path = Some Dir →
  let r := run host (a0 :: url :: start_time :: end_time :: output_path :: rest) f in
  ∃ cls msg,
    printed (final r) = [[("success", JBool false); ("error", JStr msg)]]
    ∧ spawned (final r) = []
    ∧ status r = 1
    ∧ traceback r = Some (Error cls msg)
    ∧ files (final r) = files w1.
Proof.
  intros Hmk Hdir r. subst r. unfold run.
  rewrite main_eq, Hmk, download_eq. unfold download_outcome. rewrite Hdir.
  apply makedirs_keeps_output in Hmk as (Hp1 & _ & Hs1); simpl in Hp1, Hs1.
  unfold handle, report_and_exit; simpl. rewrite Hdir. simpl.
  rewrite Hp1, Hs1. eexists _, _. repeat split.
Qed.

Lemma rstrip_by_keeps p h c x :
  p c = false →
  PyStr.rstrip_by p (h ++ c :: x) = h ++ c :: PyStr.rstrip_by p x.
Proof.
  intros Hc. induction h as [|d h IH]; simpl.
  - rewrite Hc. destruct (PyStr.rstrip_by p x); reflexivity.
  - rewrite IH. destruct h; reflexivity.
Qed.

Lemma strip_keeps_prefix h x a c :
  head h = Some a → last h = Some c →
  PyStr.is_space a = false → PyStr.is_space c = false →
  PyStr.strip (h ++ x) = h ++ PyStr.rstrip_by PyStr.is_space x.
Proof.
  intros Ha Hc Hsa Hsc. unfold PyStr.strip.
  assert (PyStr.lstrip_by PyStr.is_space (h ++ x) = h ++ x) as ->.
  { destruct h as [|b h]; [discriminate|]. simpl in Ha. simplify_eq.
    simpl. rewrite Hsa. reflexivity. }
  apply last_Some in Hc as [h' ->]. rewrite <- !app_assoc. simpl.
  apply rstrip_by_keeps. exact Hsc.
Qed.

Lemma startswith_app h y : PyStr.startswith (h ++ y) h = true.
Proof.
  induction h as [|c h IH]; [destruct y; reflexivity|].
  simpl. rewrite N.eqb_refl. exact IH.
Qed.

Lemma header_prefix_accepted tail : header_found (cookie_header +:+ tail) = true.
Proof.
  unfold header_found.
  change (PyStr.readline (PyStr.decode (cookie_header +:+ tail))) with
    (PyStr.decode cookie_header ++ PyStr.readline (PyStr.decode tail)).
  rewrite (strip_keeps_prefix _ _ 35%N 101%N) by reflexivity.
  apply startswith_app.
Qed.

(** X11. A cookie file whose content begins with the header is handed to
    the downloader whatever follows the header, on the first line or
    after it: the command started is the one with [--cookies] and the
    cookie path before the URL. *)
Theorem cookie_file_beginning_with_header_is_used url output_path w tail
    outcome w' :
  files w !! cookies_path host = Some (File (cookie_header +:+ tail)) →
  cookies_path host ≠ output_path →
  files w !! output_path ≠ Some Dir →
  download_with_ytdlp host url output_path w = (outcome, w') →
  spawned w' = spawned w ++ [cookies_cmd host url output_path].
Proof.
  intros Hjar Hne Hnodir. rewrite download_eq. unfold download_outcome.
  assert (delete output_path (files w) !! cookies_path host
          = Some (File (cookie_header +:+ tail))) as Hg
    by (rewrite lookup_delete_ne by congruence; exact Hjar).
  assert (download_cmd host (delete output_path (files w)) url output_path
          = cookies_cmd host url output_path) as Hcmd.
  { unfold download_cmd, cookie_accepted. rewrite Hg, header_prefix_accepted.
    reflexivity. }
  rewrite Hg, Hcmd.
  destruct (files w !! output_path) as [[data|]|]; [|contradiction|];
    destruct (execute host _ _) as [[e|result] g']; simpl;
    intros; simplify_eq; reflexivity.
Qed.

(** X12. An empty cookie file, or one whose first line is blank, is not
    used even if the header comes later: the warning is the first line
    logged and the plain command is started. *)
Theorem cookie_file_with_blank_first_line_is_refused url output_path w data
    outcome w' :
  files w !! cookies_path host = Some (File data) →
  (data = "" ∨ ∃ rest, data = PyStr.LF +:+ rest) →
  cookies_path host ≠ output_path →
  files w !! output_path ≠ Some Dir →
  download_with_ytdlp host url output_path w = (outcome, w') →
  spawned w' = spawned w ++ [plain_cmd host url output_path]
  ∧ logged w' !! length (logged w) = Some cookie_warning.
Proof.
  intros Hjar Hblank Hne Hnodir. rewrite download_eq.
  unfold download_outcome, announce.
  assert (delete output_path (files w) !! cookies_path host = Some (File data))
    as Hg by (rewrite lookup_delete_ne by congruence; exact Hjar).
  assert (header_found data = false) as Hno
    by (destruct Hblank as [->|[rest ->]]; reflexivity).
  assert (download_cmd host (delete output_path (files w)) url output_path
          = plain_cmd host url output_path) as Hcmd
    by (unfold download_cmd, cookie_accepted; rewrite Hg, Hno; reflexivity).
  assert (cookie_refused host (delete output_path (files w)) = true) as Hwarn
    by (unfold cookie_refused; rewrite Hg, Hno; reflexivity).
  rewrite Hg, Hcmd, Hwarn.
  destruct (files w !! output_path) as [[old|]|]; [|contradiction|];
    destruct (execute host _ _) as [[e|result] g']; simpl;
    intros; simplify_eq; simpl; (split; [reflexivity|]);
    rewrite <- ?app_assoc; simpl; apply list_lookup_middle; reflexivity.
Qed.

End Coverage.

(** ** Runs on the example host *)

(** C2. A file-system error while creating the output directory is not
    caught: with a regular file where the directory should be, the run
    prints no record, starts no sub-process, and the [FileExistsError]
    reaches the interpreter. *)
Theorem makedirs_error_is_not_reported :
  let r := run Demo.good (Demo.argv "videos/clip.mp4")
             {[ "videos" := File "not a directory" ]} in
  printed (final r) = []
  ∧ traceback r = Some (Error FileExistsError "[Errno 17] File exists: 'videos'")
  ∧ status r = 1
  ∧ spawned (final r) = [].
Proof. vm_compute. repeat split. Qed.

(** C5. Called with a bare file name, the script writes no JSON object at
    all on standard output. *)
Theorem no_record_for_bare_file_name :
  let r := run Demo.good (Demo.argv "clip.mp4") ∅ in
  length (printed (final r)) = 0%nat
  ∧ traceback r
    = Some (Error FileNotFoundError "[Errno 2] No such file or directory: ''")
  ∧ status r = 1.
Proof. vm_compute. repeat split. Qed.

(** When removing the output fails inside the [try] block, the handler
    prints a second record. *)
Example two_records_when_cleanup_raises :
  let r := run Demo.stubborn (Demo.argv "out/clip.mp4") ∅ in
  printed (final r)
  = [invalid_file_record;
     [("success", JBool false);
      ("error", JStr "[Errno 21] Is a directory: 'out/clip.mp4'")]]
  ∧ status r = 1.
Proof. vm_compute. repeat split. Qed.

(** The same command line on a working installation. *)
Example one_record_on_success :
  let r := run Demo.good (Demo.argv "out/clip.mp4") ∅ in
  printed (final r) = [success_record "720p" "out/clip.mp4"] ∧ status r = 0.
Proof. vm_compute. repeat split. Qed.

(** C6, as stated, fails: a first line that only begins with the header
    is accepted, and the cookie file is handed to the downloader. *)
Lemma cookie_header_prefix_is_accepted :
  let first_line := "# Netscape HTTP Cookie File, exported by a browser" in
  let w := initial (Demo.cookie_jar first_line) in
  first_line ≠ cookie_header
  ∧ files w !! cookies_path Demo.good
    = Some (File (first_line +:+ PyStr.LF
                  +:+ ".youtube.com TRUE / TRUE 0 SID abc" +:+ PyStr.LF))
  ∧ PyStr.strip (PyStr.readline (PyStr.decode (first_line +:+ PyStr.LF)))
    = PyStr.decode first_line
  ∧ spawned (download_with_ytdlp Demo.good Demo.url "out/clip.mp4" w).2
    = [["yt-dlp"; "-f"; format_selector; "-o"; "out/clip.mp4";
        "--cookies"; "/app/scripts/cookies.txt"; Demo.url]].
Proof. vm_compute. repeat split. discriminate. Qed.

(** C4, as stated, fails: when the probe program removes the file it is
    asked about, the success record is printed although nothing exists
    at the output path at that moment. *)
Lemma success_record_for_a_missing_file :
  let r := run Faults.eater (Demo.argv "out/clip.mp4") ∅ in
  printed (final r)
  = [[("success", JBool true); ("resolution", JStr "720p");
      ("output_path", JStr "out/clip.mp4")]]
  ∧ status r = 0
  ∧ files (final r) !! "out/clip.mp4" = None
  ∧ os_path_exists "out/clip.mp4" (final r) = (Ok false, final r).
Proof. vm_compute. repeat split. Qed.

(** A directory left at the output path by a downloader that exits with 0
    passes the size check, and the success record names a directory. *)
Example success_record_for_a_directory :
  let r := run Faults.folder (Demo.argv "out/clip.mp4") ∅ in
  printed (final r)
  = [[("success", JBool true); ("resolution", JStr "720p");
      ("output_path", JStr "out/clip.mp4")]]
  ∧ status r = 0
  ∧ files (final r) !! "out/clip.mp4" = Some Dir.
Proof. vm_compute. repeat split. Qed.

(** Decoding agrees with CPython 3.11 on well-formed text of one to four
    bytes a character, on the first surrogate excluded, and on the ways a
    sequence can be broken. *)
Example decode_vectors :
  map (fun l => PyStr.decode (Demo.octets l))
    [[195; 169]; [226; 130; 172]; [240; 159; 152; 128]; [244; 143; 191; 191];
     [237; 159; 191]; [238; 128; 128]; [239; 187; 191; 35];
     [97; 195]; [226; 130; 65]; [240; 159; 152; 65]; [245; 128; 65];
     [128; 65]; [224; 128; 128; 65]; [237; 160; 128; 65];
     [244; 144; 128; 128; 65]; [192; 175; 65]; [240; 144; 128];
     [194; 160; 35; 32; 120]]%N
  = [[233]; [8364]; [128512]; [1114111];
     [55295]; [57344]; [65279; 35];
     [97]; [65]; [65]; [65];
     [65]; [65]; [65];
     [65]; [65]; [];
     [160; 35; 32; 120]]%N.
Proof. vm_compute. reflexivity. Qed.

(** [int] as CPython 3.11 has it: digits of another script and a sign, a
    no-break space at an end, underscores between digits; no separator
    character inside, and no more than 4300 digits. *)
Example int_vectors :
  map (py_int Demo.good)
    [[43; 1639]; [160; 53]; [48; 95; 55]; [45; 49; 50];
     [28; 53]; [127]; [49; 95; 95; 48]; [49; 32; 50]; []]%N
  = [Some 7; Some 5; Some 7; Some (-12); None; None; None; None; None]
  ∧ py_int Demo.good (repeat 48%N 4300) = Some 0
  ∧ py_int Demo.good (repeat 48%N 4301) = None.
Proof. vm_compute. repeat split. Qed.

(** The probe reads digits of any script, and white space around them. *)
Example probe_output_in_arabic_indic_digits :
  py_int Demo.good (PyStr.strip [160; 1639; 1634; 1632; 10]%N) = Some 720.
Proof. vm_compute. reflexivity. Qed.

(** A cookie file with an undecodable byte and a no-break space before
    the header is used. *)
Example cookie_file_with_stray_bytes_is_used :
  header_found (String "255" (String "194" (String "160" cookie_header)))
  = true.
Proof. vm_compute. reflexivity. Qed.

(** ** The theorems at work on the example host *)

Lemma resolution_classification_witness :
  let h := Demo.linux Dir 0 (Demo.probe_ok ("479" +:+ PyStr.LF)) in
  py_int h (PyStr.strip (PyStr.decode ("479" +:+ PyStr.LF))) = Some 479
  ∧ get_video_resolution h "out/clip.mp4" (initial ∅)
    = (Ok "479p", after_probe h "out/clip.mp4" (initial ∅)).
Proof.
  split; [reflexivity|].
  apply (resolution_classification
           (Demo.linux Dir 0 (Demo.probe_ok ("479" +:+ PyStr.LF)))
           "out/clip.mp4" (initial ∅)
           (Demo.probe_ok ("479" +:+ PyStr.LF)) ∅ 479);
    reflexivity.
Defined.

Lemma usage_error_witness :
  (length ["download_video.py"; Demo.url] < 5)%nat
  ∧ status (run Demo.good ["download_video.py"; Demo.url] ∅) = 1
  ∧ printed (final (run Demo.good ["download_video.py"; Demo.url] ∅))
    = [[("success", JBool false);
        ("error",
         JStr "Usage: python download_video.py <url> <start_time> <end_time> <output_path>")]].
Proof.
  assert (length ["download_video.py"; Demo.url] < 5)%nat as H by (simpl; lia).
  split; [exact H|].
  destruct (usage_error Demo.good ["download_video.py"; Demo.url] ∅ H)
    as (Hs & _ & Hp & _).
  split; [exact Hs|exact Hp].
Defined.

Lemma bare_file_name_escapes_handler_witness :
  PosixPath.dirname "clip.mp4" = ""
  ∧ printed (final (run Demo.good (Demo.argv "clip.mp4") ∅)) = []
  ∧ status (run Demo.good (Demo.argv "clip.mp4") ∅) = 1.
Proof.
  split; [reflexivity|].
  destruct (bare_file_name_escapes_handler Demo.good (Demo.argv "clip.mp4")
              "clip.mp4" ∅ eq_refl eq_refl) as (Hp & _ & Hs & _).
  split; [exact Hp|exact Hs].
Defined.

Lemma probe_never_fails_witness :
  let h := Faults.probe_exits_1 in
  os_makedirs h "out" (initial ∅) = (Ok tt, Demo.made)
  ∧ download_with_ytdlp h Demo.url "out/clip.mp4" Demo.made
    = (Ok true, Demo.downloaded h)
  ∧ status (run h (Demo.argv "out/clip.mp4") ∅) = 0
  ∧ printed (final (run h (Demo.argv "out/clip.mp4") ∅))
    = [[("success", JBool true); ("resolution", JStr "unknown");
        ("output_path", JStr "out/clip.mp4")]].
Proof.
  assert (os_makedirs Faults.probe_exits_1 "out" (initial ∅) = (Ok tt, Demo.made))
    as Hmk by reflexivity.
  assert (download_with_ytdlp Faults.probe_exits_1 Demo.url "out/clip.mp4" Demo.made
          = (Ok true, Demo.downloaded Faults.probe_exits_1)) as Hdl
    by (vm_compute; reflexivity).
  split; [exact Hmk|]. split; [exact Hdl|].
  destruct (probe_never_fails Faults.probe_exits_1) as [Hprobe Hmain].
  destruct (Hmain "download_video.py" Demo.url "00:00:10" "00:00:20"
              "out/clip.mp4" [] ∅ Demo.made
              (Demo.downloaded Faults.probe_exits_1) 1000 Hmk Hdl)
    as (Hs & _ & label & Hres & Hp).
  - vm_compute; reflexivity.
  - vm_compute; reflexivity.
  - lia.
  - destruct (Hprobe "out/clip.mp4" (Demo.downloaded Faults.probe_exits_1))
      as (label' & Hres' & _ & Hexit & _).
    assert (label' = "unknown") as Hunknown.
    { eapply Hexit; [reflexivity|]. simpl. lia. }
    rewrite Hres in Hres'. injection Hres' as Hlabel.
    rewrite Hlabel, Hunknown in Hp. split; [exact Hs|exact Hp].
Defined.

Lemma invalid_download_is_reported_witness :
  os_makedirs Demo.short "out" (initial ∅) = (Ok tt, Demo.made)
  ∧ download_with_ytdlp Demo.short Demo.url "out/clip.mp4" Demo.made
    = (Ok true, Demo.downloaded Demo.short)
  ∧ os_path_getsize Demo.short "out/clip.mp4" (Demo.downloaded Demo.short)
    = (Ok 999, Demo.downloaded Demo.short)
  ∧ status (run Demo.short (Demo.argv "out/clip.mp4") ∅) = 1
  ∧ printed (final (run Demo.short (Demo.argv "out/clip.mp4") ∅))
    = [invalid_file_record]
  ∧ files (final (run Demo.short (Demo.argv "out/clip.mp4") ∅)) !! "out/clip.mp4"
    = None.
Proof.
  assert (os_makedirs Demo.short "out" (initial ∅) = (Ok tt, Demo.made)) as Hmk
    by reflexivity.
  assert (download_with_ytdlp Demo.short Demo.url "out/clip.mp4" Demo.made
          = (Ok true, Demo.downloaded Demo.short)) as Hdl by (vm_compute; reflexivity).
  assert (os_path_getsize Demo.short "out/clip.mp4" (Demo.downloaded Demo.short)
          = (Ok 999, Demo.downloaded Demo.short)) as Hsz by (vm_compute; reflexivity).
  split; [exact Hmk|]. split; [exact Hdl|]. split; [exact Hsz|].
  destruct (invalid_download_is_reported Demo.short "download_video.py"
              Demo.url "00:00:10" "00:00:20" "out/clip.mp4" [] ∅ Demo.made
              true (Demo.downloaded Demo.short) Hmk Hdl) as [Hbad _].
  destruct Hbad as (Hs & _ & _ & _ & Hclean).
  { right; right. exists 999. split; [exact Hsz|lia]. }
  destruct Hclean as (Hnone & Hone & _); [vm_compute; discriminate|].
  split; [exact Hs|]. split; [exact Hone|exact Hnone].
Defined.

Lemma success_record_after_validation_witness :
  let r := run Demo.good (Demo.argv "out/clip.mp4") ∅ in
  success_record "720p" "out/clip.mp4" ∈ printed (final r)
  ∧ status r = 0
  ∧ ∃ w2 size, os_path_getsize Demo.good "out/clip.mp4" w2 = (Ok size, w2)
               ∧ 1000 ≤ size.
Proof.
  assert (success_record "720p" "out/clip.mp4"
          ∈ printed (final (run Demo.good (Demo.argv "out/clip.mp4") ∅))) as Hin
    by (vm_compute; constructor).
  split; [exact Hin|].
  destruct (success_record_after_validation Demo.good
              (Demo.argv "out/clip.mp4") ∅
              (success_record "720p" "out/clip.mp4") Hin eq_refl)
    as (url & out & label & w1 & w2 & size & _ & Harg & _ & _ & Hs & _ & _ & _
        & Hsize & Hbig & _).
  simpl in Harg. injection Harg as <-.
  split; [exact Hs|]. exists w2, size. split; assumption.
Defined.

Lemma cookie_flag_rule_witness :
  let w := initial (Demo.cookie_jar "not a cookie jar") in
  files w !! "out/clip.mp4" ≠ Some Dir
  ∧ spawned (download_with_ytdlp Demo.good Demo.url "out/clip.mp4" w).2
    = [["yt-dlp"; "-f"; format_selector; "-o"; "out/clip.mp4"; Demo.url]]
  ∧ logged (download_with_ytdlp Demo.good Demo.url "out/clip.mp4" w).2 !! 0%nat
    = Some cookie_warning.
Proof.
  assert (files (initial (Demo.cookie_jar "not a cookie jar")) !! "out/clip.mp4"
          ≠ Some Dir) as Hfree by (vm_compute; discriminate).
  split; [exact Hfree|].
  exact (cookie_flag_rule Demo.good Demo.url "out/clip.mp4"
           (initial (Demo.cookie_jar "not a cookie jar")) _ _ Hfree
           (surjective_pairing _)).
Defined.

(** ** The further properties at work *)

Lemma demo_raises_exceptions_only product rc probe :
  raises_exceptions_only (Demo.linux product rc probe).
Proof.
  intros cmd g e g'. unfold Demo.linux, Demo.programs; simpl.
  intros H. repeat (case_match; simplify_eq); reflexivity.
Qed.

Lemma bare_raises_exceptions_only : raises_exceptions_only Faults.bare.
Proof.
  intros cmd g e g'. unfold Faults.bare, Faults.no_downloader; simpl.
  intros H. repeat (case_match; simplify_eq); reflexivity.
Qed.

Lemma idle_raises_exceptions_only : raises_exceptions_only Faults.idle.
Proof.
  intros cmd g e g'. unfold Faults.idle, Faults.idle_programs; simpl.
  intros H. repeat (case_match; simplify_eq); reflexivity.
Qed.

Lemma idle_writes_nothing p cmd g :
  g !! p = None → (execute Faults.idle cmd g).2 !! p = None.
Proof.
  intros H. unfold Faults.idle, Faults.idle_programs; simpl.
  repeat case_match; exact H.
Qed.

Lemma label_determines_height_class_witness :
  1080 ≤ 2160 ∧ resolution_label 2160 = "1080p".
Proof.
  split; [lia|].
  apply (proj1 (label_determines_height_class 2160)). lia.
Defined.

Lemma downloader_starts_without_old_output_witness :
  let w := initial {[ "out/clip.mp4" := File (Demo.bytes 5000) ]} in
  let w' := (download_with_ytdlp Demo.good Demo.url "out/clip.mp4" w).2 in
  files w !! "out/clip.mp4" ≠ Some Dir
  ∧ ((spawned w' = spawned w ∧ files w' !! "out/clip.mp4" = None)
     ∨ ∃ cmd, spawned w' = spawned w ++ [cmd]
              ∧ files w' = (execute Demo.good cmd
                              (delete "out/clip.mp4" (files w))).2).
Proof.
  assert (files (initial {[ "out/clip.mp4" := File (Demo.bytes 5000) ]})
            !! "out/clip.mp4" ≠ Some Dir) as Hfree by (vm_compute; discriminate).
  split; [exact Hfree|].
  exact (downloader_starts_without_old_output Demo.good Demo.url "out/clip.mp4"
           (initial {[ "out/clip.mp4" := File (Demo.bytes 5000) ]}) _ _ Hfree
           (surjective_pairing _)).
Defined.

Lemma idle_downloader_is_a_failure_witness :
  let f : gmap string node := {[ "out/clip.mp4" := File (Demo.bytes 5000) ]} in
  let r := run Faults.idle (Demo.argv "out/clip.mp4") f in
  os_makedirs Faults.idle "out" (initial f)
  = (Ok tt, (os_makedirs Faults.idle "out" (initial f)).2)
  ∧ status r = 1
  ∧ files (final r) !! "out/clip.mp4" = None.
Proof.
  assert (os_makedirs Faults.idle "out"
            (initial {[ "out/clip.mp4" := File (Demo.bytes 5000) ]})
          = (Ok tt, (os_makedirs Faults.idle "out"
                       (initial {[ "out/clip.mp4" := File (Demo.bytes 5000) ]})).2))
    as Hmk by (vm_compute; reflexivity).
  split; [exact Hmk|].
  destruct (idle_downloader_is_a_failure Faults.idle "download_video.py"
              Demo.url "00:00:10" "00:00:20" "out/clip.mp4" []
              {[ "out/clip.mp4" := File (Demo.bytes 5000) ]} _ Hmk)
    as (Hs & _ & Hf).
  - vm_compute; discriminate.
  - exact idle_raises_exceptions_only.
  - intros cmd g. apply idle_writes_nothing.
  - split; [exact Hs|exact Hf].
Defined.

Lemma exit_status_agrees_with_record_witness :
  raises_exceptions_only Faults.bare
  ∧ status (run Faults.bare (Demo.argv "out/clip.mp4") ∅) = 1.
Proof.
  split; [exact bare_raises_exceptions_only|].
  destruct (exit_status_agrees_with_record Faults.bare
              (Demo.argv "out/clip.mp4") ∅ bare_raises_exceptions_only)
    as ([H0|H1] & Hiff); [|exact H1].
  apply Hiff in H0 as (label & p & H). vm_compute in H. discriminate H.
Defined.

Lemma one_record_unless_directory_witness :
  os_makedirs Demo.short "out" (initial ∅) = (Ok tt, Demo.made)
  ∧ files (Demo.downloaded Demo.short) !! "out/clip.mp4" ≠ Some Dir
  ∧ length (printed (final (run Demo.short (Demo.argv "out/clip.mp4") ∅))) = 1%nat.
Proof.
  assert (os_makedirs Demo.short "out" (initial ∅) = (Ok tt, Demo.made)) as Hmk
    by reflexivity.
  assert (files (Demo.downloaded Demo.short) !! "out/clip.mp4" ≠ Some Dir)
    as Hfree by (vm_compute; discriminate).
  split; [exact Hmk|]. split; [exact Hfree|].
  exact (proj1 (one_record_unless_directory Demo.short "download_video.py"
                  Demo.url "00:00:10" "00:00:20" "out/clip.mp4" [] ∅ Demo.made
                  _ _ Hmk (surjective_pairing _)
                  (demo_raises_exceptions_only _ _ _) Hfree)).
Defined.

Lemma download_result_and_log_witness :
  download_with_ytdlp Demo.good Demo.url "out/clip.mp4" Demo.made
  = (Ok true, Demo.downloaded Demo.good)
  ∧ printed (Demo.downloaded Demo.good) = printed Demo.made.
Proof.
  assert (download_with_ytdlp Demo.good Demo.url "out/clip.mp4" Demo.made
          = (Ok true, Demo.downloaded Demo.good)) as Hdl
    by (vm_compute; reflexivity).
  split; [exact Hdl|].
  destruct (download_result_and_log Demo.good Demo.url "out/clip.mp4"
              Demo.made true (Demo.downloaded Demo.good) Hdl)
    as (cmd & result & before & _ & _ & Hp & _).
  exact Hp.
Defined.

Lemma directory_at_output_path_witness :
  let f : gmap string node := {[ "out/clip.mp4" := Dir ]} in
  let r := run Demo.good (Demo.argv "out/clip.mp4") f in
  (os_makedirs Demo.good "out" (initial f)).1 = Ok tt
  ∧ spawned (final r) = []
  ∧ status r = 1
  ∧ ∃ cls msg, traceback r = Some (Error cls msg).
Proof.
  assert (os_makedirs Demo.good "out" (initial {[ "out/clip.mp4" := Dir ]})
          = (Ok tt, (os_makedirs Demo.good "out"
                       (initial {[ "out/clip.mp4" := Dir ]})).2))
    as Hmk by (vm_compute; reflexivity).
  split; [reflexivity|].
  destruct (directory_at_output_path Demo.good "download_video.py" Demo.url
              "00:00:10" "00:00:20" "out/clip.mp4" []
              {[ "out/clip.mp4" := Dir ]} _ Hmk)
    as (cls & msg & _ & Hs & Hst & Ht & _).
  - vm_compute; reflexivity.
  - split; [exact Hs|]. split; [exact Hst|]. exists cls, msg. exact Ht.
Defined.

Lemma cookie_file_beginning_with_header_is_used_witness :
  let w := initial (Demo.cookie_jar (cookie_header +:+ " (exported)")) in
  files w !! cookies_path Demo.good
  = Some (File (cookie_header
                +:+ (" (exported)" +:+ PyStr.LF
                     +:+ ".youtube.com TRUE / TRUE 0 SID abc" +:+ PyStr.LF)))
  ∧ spawned (download_with_ytdlp Demo.good Demo.url "out/clip.mp4" w).2
    = [cookies_cmd Demo.good Demo.url "out/clip.mp4"].
Proof.
  assert (files (initial (Demo.cookie_jar (cookie_header +:+ " (exported)")))
            !! cookies_path Demo.good
          = Some (File (cookie_header
                        +:+ (" (exported)" +:+ PyStr.LF
                             +:+ ".youtube.com TRUE / TRUE 0 SID abc" +:+ PyStr.LF))))
    as Hjar by (vm_compute; reflexivity).
  split; [exact Hjar|].
  refine (cookie_file_beginning_with_header_is_used Demo.good Demo.url
            "out/clip.mp4" _ _ _ _ Hjar _ _ (surjective_pairing _)).
  - vm_compute; discriminate.
  - vm_compute; discriminate.
Defined.

Lemma cookie_file_with_blank_first_line_is_refused_witness :
  let w := initial {[ "/app/scripts/cookies.txt" := File "" ]} in
  let w' := (download_with_ytdlp Demo.good Demo.url "out/clip.mp4" w).2 in
  files w !! cookies_path Demo.good = Some (File "")
  ∧ spawned w' = [plain_cmd Demo.good Demo.url "out/clip.mp4"]
  ∧ logged w' !! 0%nat = Some cookie_warning.
Proof.
  assert (files (initial {[ "/app/scripts/cookies.txt" := File "" ]})
            !! cookies_path Demo.good = Some (File "")) as Hjar
    by (vm_compute; reflexivity).
  split; [exact Hjar|].
  refine (cookie_file_with_blank_first_line_is_refused Demo.good Demo.url
            "out/clip.mp4" _ "" _ _ Hjar (or_introl eq_refl) _ _
            (surjective_pairing _)).
  - vm_compute; discriminate.
  - vm_compute; discriminate.
Defined.

Lemma exception_in_try_is_reported_witness :
  let r := run Faults.bare (Demo.argv "out/clip.mp4") ∅ in
  (download_with_ytdlp Faults.bare Demo.url "out/clip.mp4" Demo.made).1
  = Raise (Error FileNotFoundError "[Errno 2] No such file or directory: 'yt-dlp'")
  ∧ status r = 1
  ∧ printed (final r)
    = [[("success", JBool false);
        ("error", JStr "[Errno 2] No such file or directory: 'yt-dlp'")]].
Proof.
  assert (os_makedirs Faults.bare "out" (initial ∅) = (Ok tt, Demo.made)) as Hmk
    by reflexivity.
  assert (download_with_ytdlp Faults.bare Demo.url "out/clip.mp4" Demo.made
          = (Raise (Error FileNotFoundError "[Errno 2] No such file or directory: 'yt-dlp'"),
             (download_with_ytdlp Faults.bare Demo.url "out/clip.mp4" Demo.made).2))
    as Hdl by (vm_compute; reflexivity).
  split; [vm_compute; reflexivity|].
  destruct (exception_in_try_is_reported Faults.bare "download_video.py"
              Demo.url "00:00:10" "00:00:20" "out/clip.mp4" [] ∅ Demo.made
              FileNotFoundError "[Errno 2] No such file or directory: 'yt-dlp'" _ Hmk Hdl)
    as (Hs & Hp & _).
  split; [exact Hs|exact Hp].
Defined.
